(** * Ethereum model fields of gnosis.eth.django

    A shallow embedding of [gnosis/eth/django/models.py]: the address,
    uint256, hex and keccak-256 model fields, together with the parts of
    the Python runtime, Django, hexbytes and eth_utils that the fields
    call.  Python values are a small tagged union, exceptions are an
    error monad, and every field method is a function named after the
    method it embeds. *)

From Stdlib Require Import ZArith NArith List String Ascii Bool Lia.
From Stdlib Require Import Strings.Byte DecimalString DecimalZ.
Import ListNotations.

Local Open Scope string_scope.
Local Open Scope Z_scope.

(** ** Python values, exceptions and builtins *)

Module Py.

(** The dynamically typed values that reach the fields. [VHexBytes] is
    the [HexBytes] subclass of [bytes]. *)
Inductive pyobj : Type :=
| VNone
| VStr (s : string)
| VBytes (b : list byte)
| VHexBytes (b : list byte).

(** Exceptions.  [ValidationError] is Django's, carrying its [code] and
    the [value] entry of its [params].  [BinasciiError] and
    [UnicodeError] are subclasses of [ValueError];
    [InvalidOperation] is [decimal.InvalidOperation], the signal the
    decimal context raises when a number does not fit its precision. *)
Inductive exn : Type :=
| ValidationError (code : string) (params_value : pyobj)
| ValueError
| BinasciiError
| UnicodeError
| TypeError
| InvalidOperation.

Inductive result (A : Type) : Type :=
| Ok (a : A)
| Raise (e : exn).
Arguments Ok {A} a.
Arguments Raise {A} e.

Definition bind {A B : Type} (m : result A) (k : A -> result B) : result B :=
  match m with
  | Ok a => k a
  | Raise e => Raise e
  end.

(** [isinstance(e, ValueError)], as tested by [except ValueError]. *)
Definition is_ValueError (e : exn) : bool :=
  match e with
  | ValueError | BinasciiError | UnicodeError => true
  | _ => false
  end.

(** [try: m  except (ValueError, binascii.Error): handler]. *)
Definition try_except_ValueError {A : Type} (m : result A) (handler : result A)
  : result A :=
  match m with
  | Ok a => Ok a
  | Raise e => if is_ValueError e then handler else Raise e
  end.

(** Truth value of an object in [if value:]. *)
Definition truthy (v : pyobj) : bool :=
  match v with
  | VNone => false
  | VStr s => negb (String.eqb s "")
  | VBytes b | VHexBytes b => negb (Nat.eqb (List.length b) 0)
  end.

(** [s[n:]] on [str]. *)
Fixpoint str_drop (n : nat) (s : string) : string :=
  match n, s with
  | O, _ => s
  | S _, EmptyString => EmptyString
  | S n', String _ s' => str_drop n' s'
  end.

(** [s.startswith(p)]. *)
Fixpoint startswith (p s : string) : bool :=
  match p, s with
  | EmptyString, _ => true
  | String _ _, EmptyString => false
  | String a p', String b s' => Ascii.eqb a b && startswith p' s'
  end.

Definition is_upper (c : ascii) : bool :=
  let n := N_of_ascii c in (65 <=? n)%N && (n <=? 90)%N.

Definition is_lower (c : ascii) : bool :=
  let n := N_of_ascii c in (97 <=? n)%N && (n <=? 122)%N.

Definition char_lower (c : ascii) : ascii :=
  if is_upper c then ascii_of_N (N_of_ascii c + 32) else c.

Definition char_upper (c : ascii) : ascii :=
  if is_lower c then ascii_of_N (N_of_ascii c - 32) else c.

(** [s.lower()]. *)
Fixpoint lower (s : string) : string :=
  match s with
  | EmptyString => EmptyString
  | String c s' => String (char_lower c) (lower s')
  end.

End Py.
Import Py.

Notation "x <- m ;; k" := (bind m (fun x => k))
  (at level 61, m at next level, right associativity).

(** ** Decimal text of integers *)

Module PyDecimal.

(** ['{:f}'.format(Decimal(v))] for an integral decimal: the digits of
    [v], with a leading minus sign when negative. *)
Definition format_f (v : Z) : string :=
  NilZero.string_of_int (Z.to_int v).

(** [int(Decimal(text))] on the text of an integral decimal. *)
Definition to_int (text : string) : result Z :=
  match NilZero.int_of_string text with
  | Some d => Ok (Z.of_int d)
  | None => Raise InvalidOperation
  end.

End PyDecimal.

(** ** Django: the save path of DecimalField *)

Module DecimalField.

(** [django.db.backends.utils.format_number] with [decimal_places = 0]
    on an integral value: the value is quantized in a context whose
    precision is [max_digits], which signals [InvalidOperation] when the
    coefficient needs more than [max_digits] digits, and is then written
    with ['{:f}']. *)
Definition format_number (value : option Z) (max_digits : Z)
  : result (option string) :=
  match value with
  | None => Ok None
  | Some v =>
      if 10 ^ max_digits <=? Z.abs v then Raise InvalidOperation
      else Ok (Some (PyDecimal.format_f v))
  end.

End DecimalField.

(** ** Uint256Field *)

Module Uint256Field.

(** [kwargs["max_digits"] = 79  # 2 ** 256 is 78 digits] *)
Definition max_digits : Z := 79.

(** [kwargs["decimal_places"] = 0] *)
Definition decimal_places : Z := 0.

(** The inherited [get_db_prep_save]: the storage text of a value. *)
Definition get_db_prep_save (value : option Z) : result (option string) :=
  DecimalField.format_number value max_digits.

(** [from_db_value]: [None] stays [None], anything else goes through
    [int]. *)
Definition from_db_value (value : option string) : result (option Z) :=
  match value with
  | None => Ok None
  | Some text => n <- PyDecimal.to_int text ;; Ok (Some n)
  end.

End Uint256Field.

(** ** Hexadecimal text *)

Module Hex.

(** Holds when every character of a [str] satisfies [p]. *)
Fixpoint str_forall (p : ascii -> bool) (s : string) : bool :=
  match s with
  | EmptyString => true
  | String c s' => p c && str_forall p s'
  end.

(** The digit of a nibble, as [bytes.hex] writes it. *)
Definition hexdigit (n : N) : ascii :=
  if (n <? 10)%N then ascii_of_N (48 + n) else ascii_of_N (87 + n).

(** The value of a hexadecimal digit of either case. *)
Definition hexval (c : ascii) : option N :=
  let n := N_of_ascii c in
  if (48 <=? n)%N && (n <=? 57)%N then Some (n - 48)%N
  else if (97 <=? n)%N && (n <=? 102)%N then Some (n - 87)%N
  else if (65 <=? n)%N && (n <=? 70)%N then Some (n - 55)%N
  else None.

(** The character class [[0-9a-fA-F]]. *)
Definition is_hex_char (c : ascii) : bool :=
  match hexval c with
  | Some _ => true
  | None => false
  end.

Definition byte_of_N (n : N) : byte :=
  match Byte.of_N n with
  | Some b => b
  | None => x00
  end.

(** [bytes.hex()]: two lowercase digits per byte, no prefix. *)
Fixpoint bytes_hex (b : list byte) : string :=
  match b with
  | [] => EmptyString
  | x :: b' =>
      let n := Byte.to_N x in
      String (hexdigit (n / 16)) (String (hexdigit (n mod 16)) (bytes_hex b'))
  end.

(** [binascii.unhexlify]: fails on an odd number of digits and on any
    character that is not a hexadecimal digit. *)
Fixpoint unhexlify (s : string) : result (list byte) :=
  match s with
  | EmptyString => Ok []
  | String _ EmptyString => Raise BinasciiError
  | String c1 (String c2 s') =>
      match hexval c1, hexval c2 with
      | Some h, Some l =>
          rest <- unhexlify s' ;; Ok (byte_of_N (16 * h + l) :: rest)
      | _, _ => Raise BinasciiError
      end
  end.

(** [text.encode("ascii")] succeeds on characters below 128. *)
Definition is_ascii_char (c : ascii) : bool := (N_of_ascii c <? 128)%N.

End Hex.
Import Hex.

(** ** hexbytes *)

Module HexBytes.

(** [hexbytes._utils.hexstr_to_bytes]: an optional [0x]/[0X] prefix is
    removed, an odd number of characters is left-padded with one [0],
    and the digits are decoded. *)
Definition hexstr_to_bytes (hexstr : string) : result (list byte) :=
  let non_prefixed_hex :=
    if startswith "0x" hexstr || startswith "0X" hexstr
    then str_drop 2 hexstr else hexstr in
  let padded_hex :=
    if Nat.odd (String.length hexstr)
    then String "0" non_prefixed_hex else non_prefixed_hex in
  if str_forall is_ascii_char padded_hex then unhexlify padded_hex
  else Raise UnicodeError.

(** [hexbytes._utils.to_bytes], which [HexBytes(val)] applies to its
    argument. *)
Definition to_bytes (val : pyobj) : result (list byte) :=
  match val with
  | VBytes b | VHexBytes b => Ok b
  | VStr s => hexstr_to_bytes s
  | VNone => Raise TypeError
  end.

(** [HexBytes.hex()]: the digits with a [0x] prefix. *)
Definition hex (b : list byte) : string := "0x" ++ bytes_hex b.

End HexBytes.

(** ** Keccak-256 *)

Module Keccak.

Definition mask64 : Z := 2 ^ 64 - 1.

Definition rotl64 (x : Z) (n : Z) : Z :=
  Z.lor (Z.land (Z.shiftl x n) mask64) (Z.shiftr x (64 - n)).

(** Lane [(x, y)] of the 5 x 5 state, stored at index [x + 5 y]. *)
Definition lane (st : list Z) (x y : nat) : Z :=
  nth (x mod 5 + 5 * y)%nat st 0.

Definition rotation_offsets : list Z :=
  [ 0;  1; 62; 28; 27;
   36; 44;  6; 55; 20;
    3; 10; 43; 25; 39;
   41; 45; 15; 21;  8;
   18;  2; 61; 56; 14].

Definition round_constants : list Z :=
  [0x0000000000000001; 0x0000000000008082; 0x800000000000808A;
   0x8000000080008000; 0x000000000000808B; 0x0000000080000001;
   0x8000000080008081; 0x8000000000008009; 0x000000000000008A;
   0x0000000000000088; 0x0000000080008009; 0x000000008000000A;
   0x000000008000808B; 0x800000000000008B; 0x8000000000008089;
   0x8000000000008003; 0x8000000000008002; 0x8000000000000080;
   0x000000000000800A; 0x800000008000000A; 0x8000000080008081;
   0x8000000000008080; 0x0000000080000001; 0x8000000080008008].

Definition coords : list (nat * nat) :=
  map (fun i => (i mod 5, i / 5)%nat) (seq 0 25).

Definition theta (st : list Z) : list Z :=
  let C x := fold_left Z.lxor (map (lane st x) (seq 0 5)) 0 in
  let D x := Z.lxor (C (x + 4)%nat) (rotl64 (C (x + 1)%nat) 1) in
  map (fun '(x, y) => Z.lxor (lane st x y) (D x)) coords.

Definition rho_pi (st : list Z) : list Z :=
  map (fun '(x, y) =>
         let x0 := ((x + 3 * y) mod 5)%nat in
         rotl64 (lane st x0 x) (nth (x0 + 5 * x)%nat rotation_offsets 0))
      coords.

Definition chi (st : list Z) : list Z :=
  map (fun '(x, y) =>
         Z.lxor (lane st x y)
                (Z.land (Z.lxor (lane st (x + 1) y) mask64) (lane st (x + 2) y)))
      coords.

Definition iota (rc : Z) (st : list Z) : list Z :=
  match st with
  | [] => []
  | l :: st' => Z.lxor l rc :: st'
  end.

Definition keccak_f (st : list Z) : list Z :=
  fold_left (fun s rc => iota rc (chi (rho_pi (theta s)))) round_constants st.

(** The rate of Keccak-256 in bytes. *)
Definition rate : nat := 136.

(** The [pad10*1] padding with Keccak's domain suffix [0x01]. *)
Definition pad (len : nat) : list Z :=
  let q := (rate - len mod rate)%nat in
  match q with
  | 1%nat => [0x81]
  | _ => (0x01 :: repeat 0 (q - 2) ++ [0x80])%list
  end.

(** Little-endian lanes of a block of bytes. *)
Fixpoint lanes_of_bytes (n : nat) (bs : list Z) : list Z :=
  match n with
  | O => []
  | S n' =>
      fold_right (fun b acc => b + 256 * acc) 0 (firstn 8 bs)
      :: lanes_of_bytes n' (skipn 8 bs)
  end.

Fixpoint xor_lanes (st blk : list Z) : list Z :=
  match st, blk with
  | l :: st', b :: blk' => Z.lxor l b :: xor_lanes st' blk'
  | _, _ => st
  end.

Fixpoint absorb (fuel : nat) (st : list Z) (data : list Z) : list Z :=
  match fuel, data with
  | S fuel', _ :: _ =>
      absorb fuel'
        (keccak_f (xor_lanes st (lanes_of_bytes 17 (firstn rate data))))
        (skipn rate data)
  | _, _ => st
  end.

Definition lane_bytes (l : Z) : list byte :=
  map (fun i => byte_of_N (Z.to_N (Z.land (Z.shiftr l (8 * i)) 255)))
      [0; 1; 2; 3; 4; 5; 6; 7].

(** [keccak(data)]: the 32-byte Keccak-256 digest. *)
Definition keccak256 (data : list byte) : list byte :=
  let bs := map (fun b => Z.of_N (Byte.to_N b)) data in
  let padded := (bs ++ pad (List.length bs))%list in
  let st := absorb (List.length padded) (repeat 0 25%nat) padded in
  (lane_bytes (nth 0 st 0) ++ lane_bytes (nth 1 st 0)
   ++ lane_bytes (nth 2 st 0) ++ lane_bytes (nth 3 st 0))%list.

End Keccak.

(** ** eth_utils *)

Module EthUtils.

(** [is_0x_prefixed]: [value.startswith(("0x", "0X"))]. *)
Definition is_0x_prefixed (value : string) : bool :=
  startswith "0x" value || startswith "0X" value.

Definition remove_0x_prefix (value : string) : string :=
  if is_0x_prefixed value then str_drop 2 value else value.

Definition add_0x_prefix (value : string) : string :=
  if is_0x_prefixed value then value else "0x" ++ value.

(** [is_hexstr]: a non-empty text matching [(0[xX])?[0-9a-fA-F]*] in
    full.  As [x] is no digit, the optional prefix is taken exactly when
    the text starts with it. *)
Definition is_hexstr (value : string) : bool :=
  negb (String.eqb value "")
  && str_forall is_hex_char (remove_0x_prefix value).

(** [encode_hex]: the digits of the bytes behind a [0x] prefix. *)
Definition encode_hex (b : list byte) : string :=
  add_0x_prefix (bytes_hex b).

(** [hexstr_if_str(to_hex, value)]: a [str] must be hexadecimal, unless
    nothing follows its prefix, and is lowercased and given a prefix;
    bytes are hex-encoded. *)
Definition hexstr_if_str_to_hex (v : pyobj) : result string :=
  match v with
  | VStr hexstr =>
      if negb (String.eqb (remove_0x_prefix hexstr) "")
         && negb (is_hexstr hexstr)
      then Raise ValueError
      else Ok (add_0x_prefix (lower hexstr))
  | VBytes b | VHexBytes b => Ok (encode_hex b)
  | VNone => Raise TypeError
  end.

(** [is_hex_address]: hexadecimal text with 40 digits after the
    prefix. *)
Definition is_hex_address (value : string) : bool :=
  is_hexstr value && Nat.eqb (String.length (remove_0x_prefix value)) 40.

(** [is_address] on a lowercased text: such a text is never
    checksum-formatted, so only the hex-address test remains. *)
Definition is_address (value : string) : bool := is_hex_address value.

Definition to_normalized_address (v : pyobj) : result string :=
  h <- hexstr_if_str_to_hex v ;;
  let hex_address := lower h in
  if is_address hex_address then Ok hex_address else Raise ValueError.

(** [int(c, 16)] on a digit of the hash. *)
Definition hex_int (c : ascii) : N :=
  match hexval c with
  | Some n => n
  | None => 0%N
  end.

(** The generator of [to_checksum_address]: over [n] positions, the
    address digit is uppercased where the hash digit exceeds 7. *)
Fixpoint checksum_digits (n : nat) (address hash : string) : string :=
  match n, address, hash with
  | S n', String c address', String h hash' =>
      String (if (7 <? hex_int h)%N then char_upper c else c)
             (checksum_digits n' address' hash')
  | _, _, _ => EmptyString
  end.

(** [keccak(text=...)] hashes the encoded text. *)
Definition keccak_text (text : string) : list byte :=
  Keccak.keccak256 (list_byte_of_string text).

(** [to_checksum_address]: positions 2 to 41 of the normalized address
    against the same positions of the hex-encoded hash. *)
Definition to_checksum_address (v : pyobj) : result string :=
  norm_address <- to_normalized_address v ;;
  let address_hash := encode_hex (keccak_text (remove_0x_prefix norm_address)) in
  Ok (add_0x_prefix
        (checksum_digits 40 (str_drop 2 norm_address) (str_drop 2 address_hash))).

End EthUtils.
Import EthUtils.

(** ** Python [str()] and Django's CharField *)

Module CharField.

Definition quote1 : ascii := ascii_of_N 39.
Definition quote2 : ascii := ascii_of_N 34.
Definition backslash : ascii := ascii_of_N 92.

Definition byte_is (c : ascii) (x : byte) : bool :=
  N.eqb (Byte.to_N x) (N_of_ascii c).

(** One byte inside [repr(bytes)]. *)
Definition repr_byte (quote : ascii) (x : byte) : string :=
  let n := Byte.to_N x in
  if N.eqb n (N_of_ascii quote) || N.eqb n 92
  then String backslash (String (ascii_of_N n) "")
  else if N.eqb n 9 then String backslash "t"
  else if N.eqb n 10 then String backslash "n"
  else if N.eqb n 13 then String backslash "r"
  else if (n <? 32)%N || (127 <=? n)%N
  then String backslash
         (String "x" (String (hexdigit (n / 16)) (String (hexdigit (n mod 16)) "")))
  else String (ascii_of_N n) "".

(** [repr(b)] of a [bytes] object: single quotes unless the bytes hold a
    single quote and no double quote. *)
Definition bytes_repr (b : list byte) : string :=
  let quote :=
    if existsb (byte_is quote1) b && negb (existsb (byte_is quote2) b)
    then quote2 else quote1 in
  String "b" (String quote
    (String.concat "" (map (repr_byte quote) b) ++ String quote "")).

(** [str(value)]. [HexBytes] prints as [HexBytes('0x..')]. *)
Definition py_str (v : pyobj) : string :=
  match v with
  | VNone => "None"
  | VStr s => s
  | VBytes b => bytes_repr b
  | VHexBytes b =>
      "HexBytes(" ++ String quote1 (HexBytes.hex b ++ String quote1 ")")
  end.

(** [CharField.to_python]: text and [None] are kept, anything else is
    converted with [str]. *)
Definition to_python (v : pyobj) : pyobj :=
  match v with
  | VStr _ | VNone => v
  | _ => VStr (py_str v)
  end.

End CharField.

(** ** EthereumAddressField *)

Module EthereumAddressField.

(** [kwargs["max_length"] = 42] *)
Definition max_length : nat := 42.

Definition to_python (value : pyobj) : result pyobj :=
  let value := CharField.to_python value in
  if truthy value then
    try_except_ValueError
      (a <- to_checksum_address value ;; Ok (VStr a))
      (Raise (ValidationError "invalid" value))
  else Ok value.

Definition from_db_value (value : pyobj) : result pyobj := to_python value.

(** [super().get_prep_value] is CharField's, which itself ends in
    [self.to_python]; the override then applies [to_python] again. *)
Definition get_prep_value (value : pyobj) : result pyobj :=
  value <- to_python value ;; to_python value.

End EthereumAddressField.

(** ** EthereumAddressV2Field *)

Module EthereumAddressV2Field.

(** [kwargs["max_length"] = 20] *)
Definition max_length : nat := 20.

Definition to_python (value : pyobj) : result pyobj :=
  match value with
  | VNone => Ok VNone
  | _ =>
      try_except_ValueError
        (a <- to_checksum_address value ;; Ok (VStr a))
        (Raise (ValidationError "invalid" value))
  end.

(** The database hands over a [memoryview], or [None]; an empty view is
    false. *)
Definition from_db_value (value : option (list byte)) : result pyobj :=
  match value with
  | Some (x :: b) => a <- to_checksum_address (VStr (bytes_hex (x :: b))) ;; Ok (VStr a)
  | _ => Ok VNone
  end.

Definition get_prep_value (value : pyobj) : result pyobj :=
  if truthy value then
    a <- to_python value ;;
    b <- HexBytes.to_bytes a ;;
    Ok (VHexBytes b)
  else Ok VNone.

End EthereumAddressV2Field.

(** ** HexField and Sha3HashField *)

Module HexField.

Definition to_python (value : pyobj) : result pyobj :=
  match value with
  | VNone => Ok VNone
  | _ => b <- HexBytes.to_bytes value ;; Ok (VStr (HexBytes.hex b))
  end.

Definition from_db_value (value : pyobj) : result pyobj := to_python value.

Definition get_prep_value (value : pyobj) : result pyobj :=
  match value with
  | VNone => Ok VNone
  | VHexBytes b => Ok (VStr (str_drop 2 (HexBytes.hex b)))
  | VBytes b => Ok (VStr (bytes_hex b))
  | VStr _ => b <- HexBytes.to_bytes value ;; Ok (VStr (str_drop 2 (HexBytes.hex b)))
  end.

(** [value[2:]]: slicing is defined on text and bytes, not on [None]. *)
Definition slice_from_2 (value : pyobj) : result pyobj :=
  match value with
  | VNone => Raise TypeError
  | VStr s => Ok (VStr (str_drop 2 s))
  | VBytes b => Ok (VBytes (skipn 2 b))
  | VHexBytes b => Ok (VBytes (skipn 2 b))
  end.

Section Clean.

(** The inherited [Field.validate] and [Field.run_validators] of the
    field instance. *)
Variable validate : pyobj -> result unit.
Variable run_validators : pyobj -> result unit.

Definition clean (value : pyobj) : result pyobj :=
  value <- to_python value ;;
  _ <- validate value ;;
  tail <- slice_from_2 value ;;
  _ <- run_validators tail ;;
  Ok value.

End Clean.

End HexField.

Module Sha3HashField.

(** [kwargs["max_length"] = 64] *)
Definition max_length : nat := 64.

Definition to_python : pyobj -> result pyobj := HexField.to_python.
Definition get_prep_value : pyobj -> result pyobj := HexField.get_prep_value.

End Sha3HashField.

(** ** Keccak256Field *)

Module Keccak256Field.

(** [kwargs["max_length"] = 32] *)
Definition max_length : nat := 32.

(** The length error is a [ValidationError], which the [except] clause
    for [ValueError] and [binascii.Error] lets through. *)
Definition to_bytes (value : pyobj) : result pyobj :=
  match value with
  | VNone => Ok VNone
  | _ =>
      try_except_ValueError
        (result <- HexBytes.to_bytes value ;;
         if negb (Nat.eqb (List.length result) 32)
         then Raise (ValidationError "length" value)
         else Ok (VHexBytes result))
        (Raise (ValidationError "invalid" value))
  end.

Definition from_db_value (value : option (list byte)) : result pyobj :=
  match value with
  | Some (x :: b) => Ok (VStr (HexBytes.hex (x :: b)))
  | _ => Ok VNone
  end.

Definition get_prep_value (value : pyobj) : result pyobj :=
  if truthy value then to_bytes value else Ok VNone.

Definition to_python (value : pyobj) : result pyobj :=
  match value with
  | VNone => Ok VNone
  | _ =>
      try_except_ValueError
        (to_bytes value)
        (Raise (ValidationError "invalid" value))
  end.

End Keccak256Field.

(** ** Django: field validation *)

Module Field.

(** [value in self.empty_values], with the default
    [(None, "", [], (), {})]. *)
Definition is_empty_value (value : pyobj) : bool :=
  match value with
  | VNone => true
  | VStr s => String.eqb s ""
  | _ => false
  end.

(** [Field.validate] of an editable field without choices: [None] needs
    [null], an empty value needs [blank]. *)
Definition validate (null blank : bool) (value : pyobj) : result unit :=
  match value with
  | VNone => if negb null then Raise (ValidationError "null" VNone)
             else if negb blank then Raise (ValidationError "blank" VNone)
             else Ok tt
  | _ => if negb blank && is_empty_value value
         then Raise (ValidationError "blank" VNone)
         else Ok tt
  end.

(** [Field.run_validators] of a CharField: empty values are skipped, a
    text is checked against [max_length]. *)
Definition run_validators (max_length : nat) (value : pyobj) : result unit :=
  match value with
  | VStr s =>
      if negb (String.eqb s "") && Nat.ltb max_length (String.length s)
      then Raise (ValidationError "max_length" value)
      else Ok tt
  | _ => Ok tt
  end.

End Field.

(** ** Address validation *)

Module Validators.

(** Modelled from the spec: [validate_checksumed_address] lives in
    [gnosis/eth/django/validators.py], which is not among the sources.
    The spec makes it true iff the value is a syntactically valid
    40-hex-digit address and its case pattern matches the checksum
    computed from its lowercase form. *)
Definition validate (value : string) : bool :=
  is_hex_address value
  && match to_checksum_address (VStr (lower value)) with
     | Ok checksummed =>
         String.eqb (remove_0x_prefix value) (remove_0x_prefix checksummed)
     | Raise _ => false
     end.

End Validators.

(** ** What the claims speak about *)

(** [s] writes the bytes [b] in hexadecimal: an optional [0x] or [0X]
    prefix followed by the digits of [b] in any letter case. *)
Definition hex_text_of (b : list byte) (s : string) : Prop :=
  exists p t, s = p ++ t /\ (p = "" \/ p = "0x" \/ p = "0X")
              /\ lower t = bytes_hex b.

(** An input that carries the bytes [b]: raw, wrapped, or as text. *)
Definition carries (b : list byte) (v : pyobj) : Prop :=
  v = VBytes b \/ v = VHexBytes b \/ exists s, v = VStr s /\ hex_text_of b s.

(** The EIP-55 form of 20 bytes: their lowercase digits, uppercased
    where the digit of the hash of those digits exceeds 7, behind
    [0x]. *)
Definition checksum_address (b : list byte) : string :=
  "0x" ++ checksum_digits 40 (bytes_hex b)
                          (bytes_hex (keccak_text (bytes_hex b))).

(** Holds when a text has an uppercase letter. *)
Fixpoint has_upper (s : string) : bool :=
  match s with
  | EmptyString => false
  | String c s' => is_upper c || has_upper s'
  end.

(** Holds when a text has a hexadecimal letter of either case. *)
Fixpoint has_hex_letter (s : string) : bool :=
  match s with
  | EmptyString => false
  | String c s' =>
      match hexval c with
      | Some n => (9 <? n)%N
      | None => false
      end || has_hex_letter s'
  end.

(** The digest of the empty message, as a sample 32-byte value. *)
Definition sample_hash : list byte :=
  [xc5; xd2; x46; x01; x86; xf7; x23; x3c; x92; x7e; x7d; xb2;
     xdc; xc7; x03; xc0; xe5; x00; xb6; x53; xca; x82; x27; x3b;
     x7b; xfa; xd8; x04; x5d; x85; xa4; x70].


(** The first address of the EIP-55 test vectors. *)
Definition sample_address : list byte :=
  [x5a; xae; xb6; x05; x3f; x3e; x94; xc9; xb9; xa0;
   x9f; x33; x66; x94; x35; xe7; xef; x1b; xea; xed].

(** ** Keyword arguments *)

Module PyDict.

(** The values that the fields put into keyword arguments. *)
Inductive kwarg : Type :=
| KInt (n : Z)
| KBool (b : bool)
| KStr (s : string)
| KNone.

(** A [dict] with text keys, in insertion order; a key occurs once. *)
Definition dict : Type := list (string * kwarg).

(** [d.get(key)]. *)
Fixpoint get (key : string) (d : dict) : option kwarg :=
  match d with
  | [] => None
  | (k, v) :: d' => if String.eqb key k then Some v else get key d'
  end.

(** [d[key] = v]: an existing key keeps its place, a new one goes to
    the end. *)
Fixpoint set (key : string) (v : kwarg) (d : dict) : dict :=
  match d with
  | [] => [(key, v)]
  | (k, w) :: d' =>
      if String.eqb key k then (k, v) :: d' else (k, w) :: set key v d'
  end.

(** [del d[key]]: [None] stands for the [KeyError] of a missing key. *)
Definition del (key : string) (d : dict) : option dict :=
  match get key d with
  | None => None
  | Some _ => Some (filter (fun kv => negb (String.eqb key (fst kv))) d)
  end.

(** [d.update(other)]. *)
Definition update (d other : dict) : dict :=
  fold_left (fun acc kv => set (fst kv) (snd kv) acc) other d.

End PyDict.

(** ** The constructor arguments of the fields *)

(** Each [__init__] fixes some keyword arguments before it hands them to
    the parent class, and each [deconstruct] removes the same keys from
    what the parent class reports.  [init] is the dictionary that
    reaches [super().__init__], [deconstruct] takes the keyword
    arguments that [super().deconstruct()] returned. *)

Module EthereumAddressFieldArgs.

Definition init (kwargs : PyDict.dict) : PyDict.dict :=
  PyDict.set "max_length"
    (PyDict.KInt (Z.of_nat EthereumAddressField.max_length)) kwargs.

Definition deconstruct (kwargs : PyDict.dict) : option PyDict.dict :=
  PyDict.del "max_length" kwargs.

End EthereumAddressFieldArgs.

Module EthereumAddressV2FieldArgs.

Definition init (kwargs : PyDict.dict) : PyDict.dict :=
  PyDict.set "max_length"
    (PyDict.KInt (Z.of_nat EthereumAddressV2Field.max_length)) kwargs.

Definition deconstruct (kwargs : PyDict.dict) : option PyDict.dict :=
  PyDict.del "max_length" kwargs.

End EthereumAddressV2FieldArgs.

Module Uint256FieldArgs.

Definition init (kwargs : PyDict.dict) : PyDict.dict :=
  PyDict.set "decimal_places" (PyDict.KInt Uint256Field.decimal_places)
    (PyDict.set "max_digits" (PyDict.KInt Uint256Field.max_digits) kwargs).

Definition deconstruct (kwargs : PyDict.dict) : option PyDict.dict :=
  match PyDict.del "max_digits" kwargs with
  | None => None
  | Some kwargs' => PyDict.del "decimal_places" kwargs'
  end.

End Uint256FieldArgs.

Module Sha3HashFieldArgs.

Definition init (kwargs : PyDict.dict) : PyDict.dict :=
  PyDict.set "max_length"
    (PyDict.KInt (Z.of_nat Sha3HashField.max_length)) kwargs.

Definition deconstruct (kwargs : PyDict.dict) : option PyDict.dict :=
  PyDict.del "max_length" kwargs.

End Sha3HashFieldArgs.

Module Keccak256FieldArgs.

Definition init (kwargs : PyDict.dict) : PyDict.dict :=
  PyDict.set "max_length"
    (PyDict.KInt (Z.of_nat Keccak256Field.max_length)) kwargs.

Definition deconstruct (kwargs : PyDict.dict) : option PyDict.dict :=
  PyDict.del "max_length" kwargs.

End Keccak256FieldArgs.

(** ** The form field of HexField *)

Module HexFieldForm.

(** [formfield]: the keyword arguments handed to [super().formfield].
    [max_length] and [null] are the field's attributes,
    [interprets_empty_strings_as_nulls] is the feature flag of the
    default connection. *)
Definition formfield (max_length : nat) (null : bool)
    (interprets_empty_strings_as_nulls : bool) (kwargs : PyDict.dict)
  : PyDict.dict :=
  let defaults := [("max_length", PyDict.KInt (Z.of_nat max_length + 2))] in
  let defaults :=
    if null && negb interprets_empty_strings_as_nulls
    then PyDict.set "empty_value" PyDict.KNone defaults
    else defaults in
  PyDict.update defaults kwargs.

End HexFieldForm.

(** The digits of a text after its optional prefix, with the [0] that
    hexbytes puts before an odd number of characters. *)
Definition padded_digits (s : string) : string :=
  (if Nat.odd (String.length s) then "0" else "") ++ remove_0x_prefix s.

(** Holds when a text has a lowercase letter. *)
Fixpoint has_lower (s : string) : bool :=
  match s with
  | EmptyString => false
  | String c s' => is_lower c || has_lower s'
  end.

(** * Properties *)

(** ** Characters *)

Ltac each_char c :=
  destruct c as [[] [] [] [] [] [] [] []]; vm_compute; try intuition congruence.

Lemma hexval_char_lower (c : ascii) : hexval (char_lower c) = hexval c.
Proof. each_char c. Qed.

Lemma is_hex_char_lower (c : ascii) : is_hex_char (char_lower c) = is_hex_char c.
Proof. unfold is_hex_char. now rewrite hexval_char_lower. Qed.

Lemma is_hex_char_upper (c : ascii) : is_hex_char (char_upper c) = is_hex_char c.
Proof. each_char c. Qed.

Lemma char_lower_idem (c : ascii) : char_lower (char_lower c) = char_lower c.
Proof. each_char c. Qed.

Lemma char_lower_upper (c : ascii) : char_lower (char_upper c) = char_lower c.
Proof. each_char c. Qed.

Lemma hex_char_ascii (c : ascii) : is_hex_char c = true -> is_ascii_char c = true.
Proof. each_char c. Qed.

Lemma hex_char_not_x (c : ascii) :
  is_hex_char c = true -> Ascii.eqb "x" c = false /\ Ascii.eqb "X" c = false.
Proof. each_char c. Qed.

Lemma char_lower_zero (c : ascii) : Ascii.eqb "0" (char_lower c) = Ascii.eqb "0" c.
Proof. each_char c. Qed.

Lemma char_lower_x (c : ascii) :
  Ascii.eqb "x" (char_lower c) = Ascii.eqb "x" c || Ascii.eqb "X" c.
Proof. each_char c. Qed.

Lemma char_lower_not_X (c : ascii) : Ascii.eqb "X" (char_lower c) = false.
Proof. each_char c. Qed.

Lemma char_lower_not_upper (c : ascii) : is_upper (char_lower c) = false.
Proof. each_char c. Qed.

Lemma not_upper_lower (c : ascii) : is_upper c = false -> char_lower c = c.
Proof. each_char c. Qed.

Lemma hexval_digit (c : ascii) (n : N) :
  hexval c = Some n -> hexdigit n = char_lower c /\ (n < 16)%N.
Proof.
  destruct c as [[] [] [] [] [] [] [] []]; vm_compute; intros [= <-];
    split; reflexivity.
Qed.

Lemma byte_digits (x : byte) :
  let n := Byte.to_N x in
  hexval (hexdigit (n / 16)) = Some (n / 16)%N
  /\ hexval (hexdigit (n mod 16)) = Some (n mod 16)%N
  /\ byte_of_N (16 * (n / 16) + n mod 16) = x.
Proof. destruct x; vm_compute; repeat split. Qed.

Lemma byte_digits_lower (x : byte) :
  let n := Byte.to_N x in
  char_lower (hexdigit (n / 16)) = hexdigit (n / 16)
  /\ char_lower (hexdigit (n mod 16)) = hexdigit (n mod 16).
Proof. destruct x; vm_compute; split; reflexivity. Qed.

Lemma to_N_byte_of_N (n : N) : (n < 256)%N -> Byte.to_N (byte_of_N n) = n.
Proof.
  intros Hn. unfold byte_of_N.
  destruct (Byte.of_N n) as [x|] eqn:E.
  - now apply Byte.to_of_N.
  - apply Byte.of_N_None_iff in E. lia.
Qed.

(** ** Uint256Field *)

Lemma to_int_nonnil (v : Z) :
  Z.to_int v <> Decimal.Pos Decimal.Nil /\ Z.to_int v <> Decimal.Neg Decimal.Nil.
Proof.
  destruct v as [|p|p]; simpl; split; try discriminate;
    intros [= E]; now apply DecimalPos.Unsigned.to_uint_nonnil in E.
Qed.

Lemma to_int_format_f (v : Z) : PyDecimal.to_int (PyDecimal.format_f v) = Ok v.
Proof.
  unfold PyDecimal.to_int, PyDecimal.format_f.
  destruct (to_int_nonnil v) as [Hp Hn].
  rewrite NilZero.isi by assumption.
  now rewrite DecimalZ.of_to.
Qed.

Lemma save_within_digits (v : Z) :
  Z.abs v < 10 ^ 79 ->
  Uint256Field.get_db_prep_save (Some v) = Ok (Some (PyDecimal.format_f v)).
Proof.
  intros Hv. unfold Uint256Field.get_db_prep_save, DecimalField.format_number.
  unfold Uint256Field.max_digits.
  destruct (Z.leb_spec (10 ^ 79) (Z.abs v)); [lia | reflexivity].
Qed.

Lemma save_beyond_digits (v : Z) :
  10 ^ 79 <= Z.abs v ->
  Uint256Field.get_db_prep_save (Some v) = Raise InvalidOperation.
Proof.
  intros Hv. unfold Uint256Field.get_db_prep_save, DecimalField.format_number.
  unfold Uint256Field.max_digits.
  destruct (Z.leb_spec (10 ^ 79) (Z.abs v)); [reflexivity | lia].
Qed.



(** The values of the field's test: all but the last are stored. *)
Example uint256_test_values :
  Uint256Field.get_db_prep_save (Some 2) = Ok (Some "2")
  /\ Uint256Field.get_db_prep_save (Some (2 ^ 260))
     = Ok (Some
         "1852673427797059126777135760139006525652319754650249024631321344126610074238976")
  /\ Uint256Field.from_db_value
       (Some
         "1852673427797059126777135760139006525652319754650249024631321344126610074238976")
     = Ok (Some (2 ^ 260))
  /\ Uint256Field.get_db_prep_save (Some (2 ^ 263)) = Raise InvalidOperation.
Proof. vm_compute. repeat split; reflexivity. Qed.

(** C7: every integer of the uint256 range is stored as a decimal text
    that reads back as the same integer. *)
Theorem uint256_roundtrip (v : Z) :
  0 <= v <= 2 ^ 256 - 1 ->
  exists text : string,
    Uint256Field.get_db_prep_save (Some v) = Ok (Some text)
    /\ Uint256Field.from_db_value (Some text) = Ok (Some v).
Proof.
  intros Hv. exists (PyDecimal.format_f v). split.
  - apply save_within_digits.
    assert (2 ^ 256 < 10 ^ 79) by (vm_compute; reflexivity). lia.
  - unfold Uint256Field.from_db_value. now rewrite to_int_format_f.
Qed.

Lemma uint256_roundtrip_witness :
  exists text : string,
    Uint256Field.get_db_prep_save
      (Some 25572735541615049941137326092682691158109824779649981270427004917341670006487)
    = Ok (Some text)
    /\ Uint256Field.from_db_value (Some text)
       = Ok (Some 25572735541615049941137326092682691158109824779649981270427004917341670006487).
Proof.
  apply (uint256_roundtrip
           25572735541615049941137326092682691158109824779649981270427004917341670006487).
  split; [lia | vm_compute; discriminate].
Defined.

(** ** Text and hexadecimal digits *)

Lemma str_pair_ind (P : string -> Prop) :
  P "" ->
  (forall c, P (String c "")) ->
  (forall c1 c2 s, P s -> P (String c1 (String c2 s))) ->
  forall s, P s.
Proof.
  intros H0 H1 H2. fix IH 1.
  intros [|c1 [|c2 s]]; [exact H0 | apply H1 | apply H2, IH].
Qed.

Lemma str_length_app (s t : string) :
  String.length (s ++ t) = (String.length s + String.length t)%nat.
Proof. induction s as [|c s IH]; simpl; [reflexivity | now rewrite IH]. Qed.

Lemma lower_app (s t : string) : lower (s ++ t) = lower s ++ lower t.
Proof. induction s as [|c s IH]; simpl; [reflexivity | now rewrite IH]. Qed.

Lemma lower_idem (s : string) : lower (lower s) = lower s.
Proof.
  induction s as [|c s IH]; simpl; [reflexivity|].
  now rewrite char_lower_idem, IH.
Qed.

Lemma length_lower (s : string) : String.length (lower s) = String.length s.
Proof. induction s as [|c s IH]; simpl; [reflexivity | now rewrite IH]. Qed.

Lemma length_bytes_hex (b : list byte) :
  String.length (bytes_hex b) = (2 * List.length b)%nat.
Proof. induction b as [|x b IH]; simpl; [reflexivity | rewrite IH; lia]. Qed.

Lemma lower_bytes_hex (b : list byte) : lower (bytes_hex b) = bytes_hex b.
Proof.
  induction b as [|x b IH]; [reflexivity|].
  destruct (byte_digits_lower x) as [Hh Hl].
  cbn [bytes_hex lower]. now rewrite Hh, Hl, IH.
Qed.

Lemma bytes_hex_inj (b1 b2 : list byte) : bytes_hex b1 = bytes_hex b2 -> b1 = b2.
Proof.
  revert b2. induction b1 as [|x b1 IH]; intros [|y b2]; try discriminate.
  - reflexivity.
  - cbn [bytes_hex]. intros [= Hh Hl Ht].
    destruct (byte_digits x) as (_ & _ & Hx).
    destruct (byte_digits y) as (Hyh & Hyl & Hy).
    f_equal; [|now apply IH].
    rewrite <- Hx, <- Hy.
    assert (Eh : Some (Byte.to_N x / 16)%N = Some (Byte.to_N y / 16)%N).
    { destruct (byte_digits x) as (E & _ & _). now rewrite <- E, Hh. }
    assert (El : Some (Byte.to_N x mod 16)%N = Some (Byte.to_N y mod 16)%N).
    { destruct (byte_digits x) as (_ & E & _). now rewrite <- E, Hl. }
    injection Eh as Eh. injection El as El. now rewrite Eh, El.
Qed.

Lemma unhexlify_pair (c1 c2 : ascii) (s : string) :
  unhexlify (String c1 (String c2 s))
  = match hexval c1, hexval c2 with
    | Some h, Some l =>
        rest <- unhexlify s ;; Ok (byte_of_N (16 * h + l) :: rest)
    | _, _ => Raise BinasciiError
    end.
Proof. reflexivity. Qed.

Lemma unhexlify_bytes_hex (b : list byte) : unhexlify (bytes_hex b) = Ok b.
Proof.
  induction b as [|x b IH]; [reflexivity|].
  destruct (byte_digits x) as (Hh & Hl & Hx).
  cbn [bytes_hex]. rewrite unhexlify_pair, Hh, Hl, IH. cbn [bind].
  now rewrite Hx.
Qed.

Lemma unhexlify_lower (s : string) : unhexlify (lower s) = unhexlify s.
Proof.
  induction s as [| c | c1 c2 s IH] using str_pair_ind; try reflexivity.
  cbn [lower]. now rewrite !unhexlify_pair, !hexval_char_lower, IH.
Qed.

Lemma unhexlify_text (b : list byte) (t : string) :
  lower t = bytes_hex b -> unhexlify t = Ok b.
Proof. intros E. now rewrite <- unhexlify_lower, E, unhexlify_bytes_hex. Qed.

Lemma unhexlify_sound (s : string) :
  forall b, unhexlify s = Ok b -> bytes_hex b = lower s.
Proof.
  induction s as [| c | c1 c2 s IH] using str_pair_ind; intros b.
  - intros [= <-]. reflexivity.
  - discriminate.
  - rewrite unhexlify_pair.
    destruct (hexval c1) as [h|] eqn:E1; [|discriminate].
    destruct (hexval c2) as [l|] eqn:E2; [|discriminate].
    destruct (unhexlify s) as [rest|e]; [|discriminate].
    cbn [bind]. intros E.
    replace b with (byte_of_N (16 * h + l) :: rest) by congruence.
    apply hexval_digit in E1 as [D1 B1]. apply hexval_digit in E2 as [D2 B2].
    cbn [bytes_hex lower]. rewrite to_N_byte_of_N by lia.
    replace ((16 * h + l) / 16)%N with h
      by (apply N.div_unique with l; lia).
    replace ((16 * h + l) mod 16)%N with l
      by (apply N.mod_unique with h; lia).
    now rewrite D1, D2, (IH rest).
Qed.

Lemma unhexlify_digits (s : string) :
  str_forall is_hex_char s = true ->
  Nat.even (String.length s) = true ->
  exists b, unhexlify s = Ok b.
Proof.
  induction s as [| c | c1 c2 s IH] using str_pair_ind.
  - intros _ _. now exists [].
  - discriminate.
  - rewrite unhexlify_pair. cbn [str_forall String.length]. unfold is_hex_char.
    destruct (hexval c1) as [h|]; [|discriminate].
    destruct (hexval c2) as [l|]; [|discriminate].
    cbn [andb Nat.even]. intros Hd He.
    destruct (IH Hd He) as [rest ->]. now eexists.
Qed.

Lemma forall_hex_lower (s : string) :
  str_forall is_hex_char (lower s) = str_forall is_hex_char s.
Proof.
  induction s as [|c s IH]; simpl; [reflexivity|].
  now rewrite is_hex_char_lower, IH.
Qed.

Lemma forall_hex_ascii (s : string) :
  str_forall is_hex_char s = true -> str_forall is_ascii_char s = true.
Proof.
  induction s as [|c s IH]; simpl; [reflexivity|].
  intros [Hc Hs]%andb_true_iff. now rewrite (hex_char_ascii c Hc), IH.
Qed.

Lemma forall_hex_bytes_hex (b : list byte) :
  str_forall is_hex_char (bytes_hex b) = true.
Proof.
  induction b as [|x b IH]; [reflexivity|].
  destruct (byte_digits x) as (Hh & Hl & _).
  cbn [bytes_hex str_forall]. rewrite IH. unfold is_hex_char.
  now rewrite Hh, Hl.
Qed.

Lemma hex_text_digits (b : list byte) (t : string) :
  lower t = bytes_hex b -> str_forall is_hex_char t = true.
Proof.
  intros E. rewrite <- forall_hex_lower, E. apply forall_hex_bytes_hex.
Qed.

Lemma is_0x_prefixed_cons (c1 c2 : ascii) (s : string) :
  is_0x_prefixed (String c1 (String c2 s))
  = Ascii.eqb "0" c1 && (Ascii.eqb "x" c2 || Ascii.eqb "X" c2).
Proof.
  unfold is_0x_prefixed. cbn [startswith].
  destruct (Ascii.eqb "0" c1), (Ascii.eqb "x" c2), (Ascii.eqb "X" c2);
    reflexivity.
Qed.

Lemma is_0x_prefixed_short (c : ascii) : is_0x_prefixed (String c "") = false.
Proof.
  unfold is_0x_prefixed. cbn [startswith].
  now destruct (Ascii.eqb "0" c).
Qed.

Lemma hex_not_prefixed (s : string) :
  str_forall is_hex_char s = true -> is_0x_prefixed s = false.
Proof.
  destruct s as [|c1 [|c2 s]].
  - reflexivity.
  - intros _. apply is_0x_prefixed_short.
  - cbn [str_forall].
    intros [_ [H2 _]%andb_true_iff]%andb_true_iff.
    destruct (hex_char_not_x c2 H2) as [Hx HX].
    rewrite is_0x_prefixed_cons, Hx, HX. apply andb_false_r.
Qed.

Lemma even_length_text (b : list byte) (t : string) :
  lower t = bytes_hex b -> Nat.odd (String.length t) = false.
Proof.
  intros E. rewrite <- length_lower, E, length_bytes_hex.
  unfold Nat.odd. now rewrite Nat.even_mul.
Qed.

(** ** HexBytes *)

Lemma hexstr_to_bytes_digits (b : list byte) (t : string) :
  lower t = bytes_hex b -> HexBytes.hexstr_to_bytes t = Ok b.
Proof.
  intros E. unfold HexBytes.hexstr_to_bytes.
  pose proof (hex_not_prefixed t (hex_text_digits b t E)) as Hp.
  unfold is_0x_prefixed in Hp. rewrite Hp, (even_length_text b t E).
  rewrite (forall_hex_ascii t (hex_text_digits b t E)).
  now apply unhexlify_text.
Qed.

Lemma hexstr_to_bytes_prefixed (b : list byte) (c : ascii) (t : string) :
  c = "x"%char \/ c = "X"%char ->
  lower t = bytes_hex b ->
  HexBytes.hexstr_to_bytes (String "0" (String c t)) = Ok b.
Proof.
  intros Hc E. unfold HexBytes.hexstr_to_bytes.
  assert (Hs : startswith "0x" (String "0" (String c t))
               || startswith "0X" (String "0" (String c t)) = true)
    by (destruct Hc as [-> | ->]; reflexivity).
  rewrite Hs. cbn [str_drop String.length].
  replace (Nat.odd (S (S (String.length t)))) with (Nat.odd (String.length t))
    by reflexivity.
  rewrite (even_length_text b t E).
  rewrite (forall_hex_ascii t (hex_text_digits b t E)).
  now apply unhexlify_text.
Qed.

Lemma hexstr_to_bytes_text (b : list byte) (s : string) :
  hex_text_of b s -> HexBytes.hexstr_to_bytes s = Ok b.
Proof.
  intros (p & t & -> & [-> | [-> | ->]] & E).
  - now apply hexstr_to_bytes_digits.
  - apply hexstr_to_bytes_prefixed; auto.
  - apply hexstr_to_bytes_prefixed; auto.
Qed.

Lemma to_bytes_carries (b : list byte) (v : pyobj) :
  carries b v -> HexBytes.to_bytes v = Ok b.
Proof.
  intros [-> | [-> | (s & -> & Hs)]]; try reflexivity.
  now apply hexstr_to_bytes_text.
Qed.

(** ** HexField *)

Lemma hexfield_to_python_carries (b : list byte) (v : pyobj) :
  carries b v -> HexField.to_python v = Ok (VStr ("0x" ++ bytes_hex b)).
Proof.
  intros Hv. pose proof (to_bytes_carries b v Hv) as E.
  unfold HexField.to_python.
  destruct v; [discriminate E | | |]; now rewrite E.
Qed.

(** C8: whatever shape carries the bytes [b] (wrapped, raw, or text with
    or without a [0x]/[0X] prefix), the stored form is the digits of [b]
    without a prefix, and reading the stored form gives the lowercase
    digits behind [0x]. *)
Theorem hexfield_prefix_discipline (b : list byte) (v : pyobj) :
  carries b v ->
  HexField.get_prep_value v = Ok (VStr (bytes_hex b))
  /\ is_0x_prefixed (bytes_hex b) = false
  /\ HexField.from_db_value (VStr (bytes_hex b)) = Ok (VStr ("0x" ++ bytes_hex b))
  /\ startswith "0x" ("0x" ++ bytes_hex b) = true
  /\ lower ("0x" ++ bytes_hex b) = "0x" ++ bytes_hex b.
Proof.
  intros Hv. repeat split.
  - pose proof (to_bytes_carries b v Hv) as E.
    destruct Hv as [-> | [-> | (s & -> & Hs)]]; try reflexivity.
    unfold HexField.get_prep_value. now rewrite E.
  - apply hex_not_prefixed, forall_hex_bytes_hex.
  - apply hexfield_to_python_carries. right; right.
    exists (bytes_hex b). split; [reflexivity|].
    exists "", (bytes_hex b). repeat split; auto using lower_bytes_hex.
  - rewrite lower_app, lower_bytes_hex. reflexivity.
Qed.

Lemma hexfield_prefix_discipline_witness :
  HexField.get_prep_value (VStr "0XDeadBeef") = Ok (VStr "deadbeef")
  /\ is_0x_prefixed "deadbeef" = false
  /\ HexField.from_db_value (VStr "deadbeef") = Ok (VStr "0xdeadbeef")
  /\ startswith "0x" "0xdeadbeef" = true
  /\ lower "0xdeadbeef" = "0xdeadbeef".
Proof.
  apply (hexfield_prefix_discipline [xde; xad; xbe; xef] (VStr "0XDeadBeef")).
  right; right. exists "0XDeadBeef". split; [reflexivity|].
  exists "0X", "DeadBeef". repeat split; auto.
Defined.

(** C9: on a field whose validation lets [None] pass, [clean] of [None]
    ends in the [TypeError] of slicing [None]; whatever the validation
    does, [clean] never hands [None] back, unlike [to_python] and
    [get_prep_value]. *)
Theorem hexfield_clean_none
  (validate run_validators : pyobj -> result unit) :
  validate VNone = Ok tt ->
  HexField.clean validate run_validators VNone = Raise TypeError
  /\ (forall validate' r, HexField.clean validate' run_validators VNone <> Ok r)
  /\ HexField.to_python VNone = Ok VNone
  /\ HexField.get_prep_value VNone = Ok VNone.
Proof.
  intros Hval. repeat split.
  - unfold HexField.clean. cbn. now rewrite Hval.
  - intros validate' r. unfold HexField.clean. cbn.
    destruct (validate' VNone); discriminate.
Qed.

Lemma hexfield_clean_none_witness :
  HexField.clean (Field.validate true true) (Field.run_validators 64) VNone
  = Raise TypeError
  /\ (forall validate' r,
         HexField.clean validate' (Field.run_validators 64) VNone <> Ok r)
  /\ HexField.to_python VNone = Ok VNone
  /\ HexField.get_prep_value VNone = Ok VNone.
Proof.
  apply (hexfield_clean_none (Field.validate true true) (Field.run_validators 64)).
  reflexivity.
Defined.

(** ** Keccak256Field and Sha3HashField *)

(** C4: a 32-byte value given raw, wrapped, or as hexadecimal text with
    or without prefix normalizes to one and the same text: [0x] and its
    64 lowercase digits.  The binary field decodes all the forms to the
    same bytes and shows them as that text. *)
Theorem hash_normalization_form_independent (b : list byte) (v : pyobj) :
  List.length b = 32%nat ->
  carries b v ->
  Sha3HashField.to_python v = Ok (VStr ("0x" ++ bytes_hex b))
  /\ Sha3HashField.to_python (VBytes b) = Sha3HashField.to_python v
  /\ String.length ("0x" ++ bytes_hex b) = 66%nat
  /\ lower ("0x" ++ bytes_hex b) = "0x" ++ bytes_hex b
  /\ Keccak256Field.to_bytes v = Ok (VHexBytes b)
  /\ Keccak256Field.from_db_value (Some b) = Ok (VStr ("0x" ++ bytes_hex b)).
Proof.
  intros Hlen Hv. pose proof (to_bytes_carries b v Hv) as E.
  pose proof (hexfield_to_python_carries b v Hv) as Ev.
  unfold Sha3HashField.to_python. repeat split.
  - exact Ev.
  - rewrite Ev. apply hexfield_to_python_carries. now left.
  - rewrite str_length_app, length_bytes_hex, Hlen. reflexivity.
  - rewrite lower_app, lower_bytes_hex. reflexivity.
  - unfold Keccak256Field.to_bytes.
    destruct v; [discriminate E | | |]; rewrite E; cbn [bind];
      rewrite Hlen; reflexivity.
  - destruct b as [|x b]; [discriminate Hlen | reflexivity].
Qed.


Lemma hash_normalization_form_independent_witness :
  let v := VStr "0xC5D2460186F7233C927E7DB2DCC703C0E500B653CA82273B7BFAD8045D85A470" in
  let shown := "0xc5d2460186f7233c927e7db2dcc703c0e500b653ca82273b7bfad8045d85a470" in
  Sha3HashField.to_python v = Ok (VStr shown)
  /\ Sha3HashField.to_python (VBytes sample_hash) = Sha3HashField.to_python v
  /\ String.length shown = 66%nat
  /\ lower shown = shown
  /\ Keccak256Field.to_bytes v = Ok (VHexBytes sample_hash)
  /\ Keccak256Field.from_db_value (Some sample_hash) = Ok (VStr shown).
Proof.
  apply (hash_normalization_form_independent sample_hash
           (VStr "0xC5D2460186F7233C927E7DB2DCC703C0E500B653CA82273B7BFAD8045D85A470")).
  - reflexivity.
  - right; right. eexists. split; [reflexivity|].
    exists "0x", "C5D2460186F7233C927E7DB2DCC703C0E500B653CA82273B7BFAD8045D85A470".
    repeat split; auto.
Defined.


(** ** eth_utils: prefixes and normalized addresses *)

Lemma is_0x_prefixed_lower (s : string) :
  is_0x_prefixed (lower s) = is_0x_prefixed s.
Proof.
  destruct s as [|c1 [|c2 s]].
  - reflexivity.
  - cbn [lower]. now rewrite !is_0x_prefixed_short.
  - cbn [lower]. rewrite !is_0x_prefixed_cons.
    rewrite char_lower_zero, char_lower_x, char_lower_not_X.
    now rewrite orb_false_r.
Qed.

Lemma prefixed_inv (s : string) :
  is_0x_prefixed s = true ->
  exists c t, s = String "0" (String c t) /\ (c = "x"%char \/ c = "X"%char).
Proof.
  destruct s as [|c1 [|c2 s]].
  - discriminate.
  - now rewrite is_0x_prefixed_short.
  - rewrite is_0x_prefixed_cons.
    intros [H1 H2]%andb_true_iff. apply Ascii.eqb_eq in H1 as <-.
    exists c2, s. split; [reflexivity|].
    apply orb_true_iff in H2 as [H2|H2]; apply Ascii.eqb_eq in H2; auto.
Qed.

Lemma prefix_split (s : string) :
  exists p, s = p ++ remove_0x_prefix s /\ (p = "" \/ p = "0x" \/ p = "0X").
Proof.
  unfold remove_0x_prefix. destruct (is_0x_prefixed s) eqn:E.
  - destruct (prefixed_inv s E) as (c & t & -> & [-> | ->]).
    + exists "0x". auto.
    + exists "0X". auto.
  - exists "". auto.
Qed.

Lemma remove_prefix_text (b : list byte) (s : string) :
  hex_text_of b s -> lower (remove_0x_prefix s) = bytes_hex b.
Proof.
  intros (p & t & -> & [-> | [-> | ->]] & E); try exact E.
  unfold remove_0x_prefix. cbn [append].
  now rewrite (hex_not_prefixed t (hex_text_digits b t E)).
Qed.

Lemma lower_add_prefix (s : string) :
  lower (add_0x_prefix (lower s)) = "0x" ++ lower (remove_0x_prefix s).
Proof.
  unfold add_0x_prefix, remove_0x_prefix. rewrite is_0x_prefixed_lower.
  destruct (is_0x_prefixed s) eqn:E.
  - destruct (prefixed_inv s E) as (c & t & -> & [-> | ->]);
      cbn [lower str_drop]; now rewrite lower_idem.
  - cbn [append lower]. now rewrite lower_idem.
Qed.

Lemma remove_prefix_0x (w : string) : remove_0x_prefix ("0x" ++ w) = w.
Proof. reflexivity. Qed.

(** A text normalizes exactly when 40 hexadecimal digits follow its
    optional prefix. *)
Lemma to_normalized_address_str (s : string) :
  to_normalized_address (VStr s)
  = if str_forall is_hex_char (remove_0x_prefix s)
       && Nat.eqb (String.length (remove_0x_prefix s)) 40
    then Ok ("0x" ++ lower (remove_0x_prefix s))
    else Raise ValueError.
Proof.
  unfold to_normalized_address, hexstr_if_str_to_hex.
  set (u := remove_0x_prefix s).
  assert (Hadd : is_address ("0x" ++ lower u)
                 = str_forall is_hex_char u && Nat.eqb (String.length u) 40).
  { unfold is_address, is_hex_address, is_hexstr.
    change (remove_0x_prefix ("0x" ++ lower u)) with (lower u).
    now rewrite forall_hex_lower, length_lower. }
  destruct (String.eqb_spec u "") as [Hu|Hu].
  - cbn [negb andb bind]. rewrite lower_add_prefix. fold u.
    rewrite Hadd, Hu. reflexivity.
  - assert (Hs : is_hexstr s = str_forall is_hex_char u).
    { unfold is_hexstr. fold u.
      destruct (String.eqb_spec s "") as [->|_]; [now elim Hu | reflexivity]. }
    rewrite Hs. destruct (str_forall is_hex_char u) eqn:Hd; cbn [negb andb bind].
    + rewrite lower_add_prefix. fold u. rewrite Hadd. reflexivity.
    + reflexivity.
Qed.

Lemma encode_hex_prefix (b : list byte) : encode_hex b = "0x" ++ bytes_hex b.
Proof.
  unfold encode_hex, add_0x_prefix.
  now rewrite (hex_not_prefixed _ (forall_hex_bytes_hex b)).
Qed.

(** Bytes normalize exactly when there are 20 of them. *)
Lemma to_normalized_address_bytes (b : list byte) (v : pyobj) :
  v = VBytes b \/ v = VHexBytes b ->
  to_normalized_address v
  = if Nat.eqb (List.length b) 20 then Ok ("0x" ++ bytes_hex b)
    else Raise ValueError.
Proof.
  intros Hv.
  assert (E : to_normalized_address v
              = let h := lower (encode_hex b) in
                if is_address h then Ok h else Raise ValueError)
    by (destruct Hv as [-> | ->]; reflexivity).
  rewrite E, encode_hex_prefix, lower_app, lower_bytes_hex. cbn zeta.
  change (lower "0x" ++ bytes_hex b) with ("0x" ++ bytes_hex b).
  unfold is_address, is_hex_address, is_hexstr.
  change (remove_0x_prefix ("0x" ++ bytes_hex b)) with (bytes_hex b).
  rewrite forall_hex_bytes_hex, length_bytes_hex.
  change (negb ("0x" ++ bytes_hex b =? "")%string) with true. cbn [andb].
  destruct (Nat.eqb_spec (List.length b) 20) as [H|H].
  - now rewrite H.
  - destruct (Nat.eqb_spec (2 * List.length b) 40); [lia | reflexivity].
Qed.

(** ** The EIP-55 form *)

Lemma keccak256_length (data : list byte) :
  List.length (Keccak.keccak256 data) = 32%nat.
Proof.
  unfold Keccak.keccak256, Keccak.lane_bytes.
  now rewrite !List.length_app, !List.length_map.
Qed.

(** The digests of the empty message and of [abc]. *)
Example keccak256_vectors :
  bytes_hex (Keccak.keccak256 [])
  = "c5d2460186f7233c927e7db2dcc703c0e500b653ca82273b7bfad8045d85a470"
  /\ bytes_hex (keccak_text "abc")
     = "4e03657aea45a94fc7d47ba826c8d667c0d1e6e33a64a036ec44f58fa12d6c45".
Proof. vm_compute. split; reflexivity. Qed.

Lemma forall_hex_checksum_digits (n : nat) :
  forall address hash,
    str_forall is_hex_char address = true ->
    str_forall is_hex_char (checksum_digits n address hash) = true.
Proof.
  induction n as [|n IH]; intros [|c a] [|h k] Ha; try reflexivity.
  cbn [str_forall] in Ha. apply andb_true_iff in Ha as [Hc Ha].
  cbn [checksum_digits str_forall]. rewrite (IH a k Ha).
  destruct (7 <? hex_int h)%N; [now rewrite is_hex_char_upper, Hc | now rewrite Hc].
Qed.

Lemma length_checksum_digits (n : nat) :
  forall address hash,
    String.length address = n -> (n <= String.length hash)%nat ->
    String.length (checksum_digits n address hash) = n.
Proof.
  induction n as [|n IH]; intros [|c a] [|h k] Ha Hk;
    cbn [String.length] in *; try reflexivity; try lia.
  cbn [checksum_digits String.length]. rewrite IH; lia.
Qed.

Lemma lower_checksum_digits (n : nat) :
  forall address hash,
    String.length address = n -> (n <= String.length hash)%nat ->
    lower (checksum_digits n address hash) = lower address.
Proof.
  induction n as [|n IH]; intros [|c a] [|h k] Ha Hk;
    cbn [String.length] in *; try reflexivity; try lia.
  cbn [checksum_digits lower]. rewrite IH by lia.
  destruct (7 <? hex_int h)%N; [now rewrite char_lower_upper | reflexivity].
Qed.

Lemma length_hash_hex (text : string) :
  String.length (bytes_hex (keccak_text text)) = 64%nat.
Proof.
  unfold keccak_text. now rewrite length_bytes_hex, keccak256_length.
Qed.

Lemma checksum_address_length (b : list byte) :
  List.length b = 20%nat -> String.length (checksum_address b) = 42%nat.
Proof.
  intros Hb. unfold checksum_address. rewrite str_length_app.
  rewrite length_checksum_digits; [reflexivity | |].
  - rewrite length_bytes_hex. lia.
  - rewrite length_hash_hex. lia.
Qed.

Lemma checksum_address_lower (b : list byte) :
  List.length b = 20%nat -> lower (checksum_address b) = "0x" ++ bytes_hex b.
Proof.
  intros Hb. unfold checksum_address. rewrite lower_app.
  rewrite lower_checksum_digits, lower_bytes_hex; [reflexivity | |].
  - rewrite length_bytes_hex. lia.
  - rewrite length_hash_hex. lia.
Qed.

Lemma checksum_address_inj (b1 b2 : list byte) :
  List.length b1 = 20%nat -> List.length b2 = 20%nat ->
  checksum_address b1 = checksum_address b2 -> b1 = b2.
Proof.
  intros H1 H2 E. apply (f_equal lower) in E.
  rewrite !checksum_address_lower in E by assumption.
  injection E as E. now apply bytes_hex_inj.
Qed.

(** The checksum of a normalized address is the EIP-55 form of its
    bytes. *)
Lemma to_checksum_address_norm (v : pyobj) (b : list byte) :
  to_normalized_address v = Ok ("0x" ++ bytes_hex b) ->
  to_checksum_address v = Ok (checksum_address b).
Proof.
  intros E. unfold to_checksum_address. rewrite E. cbn [bind].
  change (remove_0x_prefix ("0x" ++ bytes_hex b)) with (bytes_hex b).
  rewrite encode_hex_prefix.
  change (str_drop 2 ("0x" ++ bytes_hex b)) with (bytes_hex b).
  change (str_drop 2 ("0x" ++ bytes_hex (keccak_text (bytes_hex b))))
    with (bytes_hex (keccak_text (bytes_hex b))).
  unfold add_0x_prefix, checksum_address.
  rewrite hex_not_prefixed; [reflexivity|].
  apply forall_hex_checksum_digits, forall_hex_bytes_hex.
Qed.

Lemma to_checksum_address_bytes (b : list byte) (v : pyobj) :
  v = VBytes b \/ v = VHexBytes b ->
  to_checksum_address v
  = if Nat.eqb (List.length b) 20 then Ok (checksum_address b)
    else Raise ValueError.
Proof.
  intros Hv. pose proof (to_normalized_address_bytes b v Hv) as E.
  destruct (Nat.eqb (List.length b) 20).
  - now apply to_checksum_address_norm.
  - unfold to_checksum_address. now rewrite E.
Qed.

Lemma to_checksum_address_text (b : list byte) (s : string) :
  List.length b = 20%nat -> hex_text_of b s ->
  to_checksum_address (VStr s) = Ok (checksum_address b).
Proof.
  intros Hb Hs. apply to_checksum_address_norm.
  rewrite to_normalized_address_str.
  pose proof (remove_prefix_text b s Hs) as E.
  rewrite <- forall_hex_lower, <- length_lower, E.
  rewrite forall_hex_bytes_hex, length_bytes_hex, Hb. reflexivity.
Qed.

Lemma to_checksum_address_text_inv (s : string) :
  (~ exists b, List.length b = 20%nat /\ hex_text_of b s) ->
  to_checksum_address (VStr s) = Raise ValueError.
Proof.
  intros Hno. unfold to_checksum_address. rewrite to_normalized_address_str.
  set (u := remove_0x_prefix s).
  destruct (str_forall is_hex_char u) eqn:Hd; [|reflexivity].
  destruct (Nat.eqb_spec (String.length u) 40) as [Hl|Hl]; [|reflexivity].
  exfalso. apply Hno.
  destruct (unhexlify_digits u Hd) as [b Hb]; [now rewrite Hl|].
  apply unhexlify_sound in Hb.
  exists b. split.
  - pose proof (length_bytes_hex b) as L.
    rewrite Hb, length_lower, Hl in L. lia.
  - destruct (prefix_split s) as (p & Hs & Hp).
    exists p, u. now repeat split.
Qed.

(** ** The address fields *)

Lemma bytes_repr_shape (b : list byte) :
  exists q rest,
    CharField.bytes_repr b = String "b" (String q rest)
    /\ is_hex_char q = false.
Proof.
  unfold CharField.bytes_repr.
  destruct (existsb (CharField.byte_is CharField.quote1) b
            && negb (existsb (CharField.byte_is CharField.quote2) b));
    eexists _, _; split; reflexivity.
Qed.

Lemma to_checksum_address_repr (b : list byte) :
  to_checksum_address (VStr (CharField.bytes_repr b)) = Raise ValueError.
Proof.
  destruct (bytes_repr_shape b) as (q & rest & -> & Hq).
  unfold to_checksum_address. rewrite to_normalized_address_str.
  unfold remove_0x_prefix. rewrite is_0x_prefixed_cons.
  change (Ascii.eqb "0" "b") with false. cbn [andb str_forall].
  rewrite Hq. cbn [andb]. rewrite andb_false_r. reflexivity.
Qed.

Lemma text_field_to_python_text (s : string) :
  s <> "" ->
  EthereumAddressField.to_python (VStr s)
  = try_except_ValueError
      (a <- to_checksum_address (VStr s) ;; Ok (VStr a))
      (Raise (ValidationError "invalid" (VStr s))).
Proof.
  intros Hs. unfold EthereumAddressField.to_python.
  cbn [CharField.to_python truthy].
  now destruct (String.eqb_spec s "").
Qed.

Lemma hex_text_nonempty (b : list byte) (s : string) :
  List.length b = 20%nat -> hex_text_of b s -> s <> "".
Proof.
  intros Hb Hs ->. pose proof (to_checksum_address_text b "" Hb Hs) as E.
  discriminate E.
Qed.

Lemma no_address_in_empty_text :
  ~ exists b, List.length b = 20%nat /\ hex_text_of b "".
Proof.
  intros (b & Hb & Hs). now apply (hex_text_nonempty b "" Hb Hs).
Qed.

(** C2, as the spec has it, fails on the text field: the empty text
    carries no 20 bytes, yet it is handed back instead of rejected. *)
Lemma text_field_keeps_empty_text :
  EthereumAddressField.to_python (VStr "") = Ok (VStr "")
  /\ ~ (exists b, List.length b = 20%nat /\ hex_text_of b "").
Proof. split; [reflexivity | exact no_address_in_empty_text]. Qed.

(** C2, amended: hexadecimal text of 20 bytes, with or without prefix
    and in any letter case, normalizes on both address fields to the
    EIP-55 form of those bytes: 42 characters, determined by the bytes
    alone and determining them.  The binary field takes raw 20 bytes to
    the same text, while the text field turns raw bytes into their
    printed form first and rejects that.  Any other input except [None]
    fails on the binary field with the invalid-address error carrying
    the input, and so does any other non-empty text on the text
    field. *)
Theorem address_normalization :
  (forall b s, List.length b = 20%nat -> hex_text_of b s ->
     EthereumAddressField.to_python (VStr s) = Ok (VStr (checksum_address b))
     /\ EthereumAddressV2Field.to_python (VStr s) = Ok (VStr (checksum_address b))
     /\ EthereumAddressV2Field.to_python (VBytes b) = Ok (VStr (checksum_address b)))
  /\ (forall b, List.length b = 20%nat ->
        String.length (checksum_address b) = 42%nat
        /\ startswith "0x" (checksum_address b) = true
        /\ lower (checksum_address b) = "0x" ++ bytes_hex b)
  /\ (forall b1 b2, List.length b1 = 20%nat -> List.length b2 = 20%nat ->
        checksum_address b1 = checksum_address b2 -> b1 = b2)
  /\ (forall v, v <> VNone ->
        (~ exists b, List.length b = 20%nat /\ carries b v) ->
        EthereumAddressV2Field.to_python v = Raise (ValidationError "invalid" v))
  /\ (forall s, s <> "" ->
        (~ exists b, List.length b = 20%nat /\ hex_text_of b s) ->
        EthereumAddressField.to_python (VStr s)
        = Raise (ValidationError "invalid" (VStr s)))
  /\ (forall b,
        EthereumAddressField.to_python (VBytes b)
        = Raise (ValidationError "invalid" (VStr (CharField.bytes_repr b)))).
Proof.
  split; [|split; [|split; [|split; [|split]]]].
  - intros b s Hb Hs. split; [|split].
    + rewrite text_field_to_python_text by exact (hex_text_nonempty b s Hb Hs).
      now rewrite (to_checksum_address_text b s Hb Hs).
    + unfold EthereumAddressV2Field.to_python.
      now rewrite (to_checksum_address_text b s Hb Hs).
    + unfold EthereumAddressV2Field.to_python.
      rewrite (to_checksum_address_bytes b (VBytes b)) by now left.
      now rewrite Hb.
  - intros b Hb. split; [|split].
    + now apply checksum_address_length.
    + reflexivity.
    + now apply checksum_address_lower.
  - exact checksum_address_inj.
  - intros v Hv Hno. unfold EthereumAddressV2Field.to_python.
    destruct v as [|s|b|b].
    + now elim Hv.
    + rewrite to_checksum_address_text_inv; [reflexivity|].
      intros (b & Hb & Hs). apply Hno. exists b. split; [exact Hb|].
      right; right. now exists s.
    + rewrite (to_checksum_address_bytes b (VBytes b)) by now left.
      destruct (Nat.eqb_spec (List.length b) 20) as [Hb|Hb]; [|reflexivity].
      elim Hno. exists b. split; [exact Hb | now left].
    + rewrite (to_checksum_address_bytes b (VHexBytes b)) by now right.
      destruct (Nat.eqb_spec (List.length b) 20) as [Hb|Hb]; [|reflexivity].
      elim Hno. exists b. split; [exact Hb | right; now left].
  - intros s Hs Hno. rewrite text_field_to_python_text by exact Hs.
    now rewrite to_checksum_address_text_inv.
  - intros b. unfold EthereumAddressField.to_python.
    cbn [CharField.to_python CharField.py_str].
    destruct (bytes_repr_shape b) as (q & rest & E & _).
    assert (Ht : truthy (VStr (CharField.bytes_repr b)) = true)
      by (rewrite E; reflexivity).
    rewrite Ht, to_checksum_address_repr. reflexivity.
Qed.

(** ** Address validation *)

Lemma has_upper_lower (s : string) : has_upper (lower s) = false.
Proof.
  induction s as [|c s IH]; [reflexivity|].
  cbn [lower has_upper]. now rewrite char_lower_not_upper, IH.
Qed.

Lemma no_upper_lower (s : string) : has_upper s = false -> lower s = s.
Proof.
  induction s as [|c s IH]; [reflexivity|].
  cbn [lower has_upper]. intros [Hc Hs]%orb_false_iff.
  now rewrite (not_upper_lower c Hc), (IH Hs).
Qed.

Lemma validate_form (b : list byte) (value : string) :
  List.length b = 20%nat ->
  lower value = "0x" ++ bytes_hex b ->
  Validators.validate value
  = String.eqb (remove_0x_prefix value) (remove_0x_prefix (checksum_address b)).
Proof.
  intros Hb E. unfold Validators.validate.
  assert (Ht : hex_text_of b (lower value)).
  { exists "0x", (bytes_hex b). repeat split; auto using lower_bytes_hex. }
  rewrite (to_checksum_address_text b (lower value) Hb Ht).
  assert (Hh : is_hex_address (lower value) = true).
  { rewrite E. unfold is_hex_address, is_hexstr.
    change (remove_0x_prefix ("0x" ++ bytes_hex b)) with (bytes_hex b).
    rewrite forall_hex_bytes_hex, length_bytes_hex, Hb. reflexivity. }
  assert (Hv : is_hex_address value = is_hex_address (lower value)).
  { unfold is_hex_address, is_hexstr, remove_0x_prefix.
    rewrite is_0x_prefixed_lower.
    assert (En : (value =? "")%string = (lower value =? "")%string)
      by (destruct value; reflexivity).
    rewrite En. destruct (is_0x_prefixed value).
    - destruct value as [|c1 [|c2 t]]; try reflexivity.
      cbn [lower str_drop]. now rewrite forall_hex_lower, length_lower.
    - now rewrite forall_hex_lower, length_lower. }
  now rewrite Hv, Hh.
Qed.

(** C3, as the spec has it, fails: the address 0x00..0b has a
    hexadecimal letter, but its checksummed form has no uppercase
    letter, so the lowercase form is the checksummed form and
    validates. *)
Lemma lowercase_checksum_validates :
  let A := (repeat x00 19 ++ [x0b])%list in
  has_hex_letter (checksum_address A) = true
  /\ Validators.validate (lower (checksum_address A)) = true.
Proof. vm_compute. split; reflexivity. Qed.

(** C3, amended: the checksummed form of every address validates; its
    all-lowercase form fails validation whenever the checksummed form
    has an uppercase letter, and validates when it has none. *)
Theorem checksum_validation_case_sensitive (A : list byte) :
  List.length A = 20%nat ->
  Validators.validate (checksum_address A) = true
  /\ (has_upper (checksum_address A) = true ->
      Validators.validate (lower (checksum_address A)) = false)
  /\ (has_upper (checksum_address A) = false ->
      Validators.validate (lower (checksum_address A)) = true).
Proof.
  intros HA. pose proof (checksum_address_lower A HA) as El.
  split; [|split].
  - rewrite (validate_form A _ HA El). apply String.eqb_refl.
  - intros Hu. rewrite (validate_form A (lower (checksum_address A)) HA)
      by (now rewrite lower_idem).
    apply String.eqb_neq. intros E.
    assert (Ec : lower (checksum_address A) = checksum_address A).
    { rewrite El in *. unfold checksum_address in *.
      rewrite !remove_prefix_0x in E. f_equal. exact E. }
    rewrite <- Ec, has_upper_lower in Hu. discriminate.
  - intros Hu. rewrite (no_upper_lower _ Hu).
    rewrite (validate_form A _ HA El). apply String.eqb_refl.
Qed.

Lemma checksum_validation_case_sensitive_witness :
  Validators.validate (checksum_address sample_address) = true
  /\ (has_upper (checksum_address sample_address) = true ->
      Validators.validate (lower (checksum_address sample_address)) = false)
  /\ (has_upper (checksum_address sample_address) = false ->
      Validators.validate (lower (checksum_address sample_address)) = true).
Proof.
  apply (checksum_validation_case_sensitive sample_address). reflexivity.
Defined.

(** The EIP-55 test vector, in full. *)
Example checksum_address_sample :
  checksum_address sample_address = "0x5aAeb6053F3E94C9b9A09f33669435E7Ef1BeAed"
  /\ has_upper (checksum_address sample_address) = true.
Proof. vm_compute. split; reflexivity. Qed.

(** The null address has no letter to capitalise. *)
Example checksum_address_null :
  checksum_address (repeat x00 20) = "0x0000000000000000000000000000000000000000"
  /\ Validators.validate "0x0000000000000000000000000000000000000000" = true
  /\ Validators.validate "0x0000000000000000000000000000000000000001" = true.
Proof. vm_compute. repeat split; reflexivity. Qed.

(** The too-short address of the tests is rejected by both fields. *)
Example address_0x23_rejected :
  EthereumAddressField.to_python (VStr "0x23")
  = Raise (ValidationError "invalid" (VStr "0x23"))
  /\ EthereumAddressV2Field.to_python (VStr "0x23")
     = Raise (ValidationError "invalid" (VStr "0x23")).
Proof. split; reflexivity. Qed.

(** Raw bytes reach the text field as their printed form. *)
Example text_field_rejects_raw_bytes :
  EthereumAddressField.to_python (VBytes [x00; x41; x5c; xff])
  = Raise (ValidationError "invalid" (VStr "b'\x00A\\\xff'")).
Proof. vm_compute. reflexivity. Qed.

Lemma address_normalization_witness :
  EthereumAddressField.to_python (VStr "5AAEB6053F3E94C9B9A09F33669435E7EF1BEAED")
  = Ok (VStr (checksum_address sample_address))
  /\ EthereumAddressV2Field.to_python
       (VStr "5AAEB6053F3E94C9B9A09F33669435E7EF1BEAED")
     = Ok (VStr (checksum_address sample_address))
  /\ EthereumAddressV2Field.to_python (VBytes sample_address)
     = Ok (VStr (checksum_address sample_address)).
Proof.
  apply (proj1 address_normalization sample_address
               "5AAEB6053F3E94C9B9A09F33669435E7EF1BEAED").
  - reflexivity.
  - exists "", "5AAEB6053F3E94C9B9A09F33669435E7EF1BEAED". repeat split; auto.
Defined.

(** ** Absent and empty values *)

(** C6: every encode, decode and normalize operation of the four codecs
    takes [None] to [None] without raising. *)
Theorem none_is_preserved :
  EthereumAddressField.to_python VNone = Ok VNone
  /\ EthereumAddressField.from_db_value VNone = Ok VNone
  /\ EthereumAddressField.get_prep_value VNone = Ok VNone
  /\ EthereumAddressV2Field.to_python VNone = Ok VNone
  /\ EthereumAddressV2Field.from_db_value None = Ok VNone
  /\ EthereumAddressV2Field.get_prep_value VNone = Ok VNone
  /\ Keccak256Field.to_bytes VNone = Ok VNone
  /\ Keccak256Field.to_python VNone = Ok VNone
  /\ Keccak256Field.from_db_value None = Ok VNone
  /\ Keccak256Field.get_prep_value VNone = Ok VNone
  /\ Sha3HashField.to_python VNone = Ok VNone
  /\ Sha3HashField.get_prep_value VNone = Ok VNone
  /\ HexField.to_python VNone = Ok VNone
  /\ HexField.from_db_value VNone = Ok VNone
  /\ HexField.get_prep_value VNone = Ok VNone
  /\ Uint256Field.get_db_prep_save None = Ok None
  /\ Uint256Field.from_db_value None = Ok None.
Proof. repeat split. Qed.

(** C10: false values other than [None] count as absent.  The text
    field hands the empty text back unchanged, and the binary address
    and hash fields prepare empty text and empty bytes as [None], where
    their checked conversions would have raised. *)
Theorem empty_values_count_as_absent :
  EthereumAddressField.to_python (VStr "") = Ok (VStr "")
  /\ EthereumAddressV2Field.get_prep_value (VStr "") = Ok VNone
  /\ EthereumAddressV2Field.get_prep_value (VBytes []) = Ok VNone
  /\ Keccak256Field.get_prep_value (VStr "") = Ok VNone
  /\ Keccak256Field.get_prep_value (VBytes []) = Ok VNone
  /\ EthereumAddressV2Field.to_python (VStr "")
     = Raise (ValidationError "invalid" (VStr ""))
  /\ EthereumAddressV2Field.to_python (VBytes [])
     = Raise (ValidationError "invalid" (VBytes []))
  /\ Keccak256Field.to_bytes (VStr "")
     = Raise (ValidationError "length" (VStr ""))
  /\ Keccak256Field.to_bytes (VBytes [])
     = Raise (ValidationError "length" (VBytes []))
  /\ (forall v, truthy v = false ->
        EthereumAddressV2Field.get_prep_value v = Ok VNone
        /\ Keccak256Field.get_prep_value v = Ok VNone).
Proof.
  repeat split;
    unfold EthereumAddressV2Field.get_prep_value, Keccak256Field.get_prep_value;
    now rewrite H.
Qed.

(** * Further properties of the fields *)

(** The hash is never unfolded on unknown input. *)
Opaque Keccak.keccak256.

(** ** Outcomes of the checksum conversion *)

Lemma to_checksum_address_text_cases (s : string) :
  (exists b, List.length b = 20%nat /\ hex_text_of b s
             /\ to_checksum_address (VStr s) = Ok (checksum_address b))
  \/ to_checksum_address (VStr s) = Raise ValueError.
Proof.
  destruct (str_forall is_hex_char (remove_0x_prefix s)
            && Nat.eqb (String.length (remove_0x_prefix s)) 40) eqn:E.
  - left. apply andb_true_iff in E as [Hd Hl]. apply Nat.eqb_eq in Hl.
    destruct (unhexlify_digits _ Hd) as [b Hb]; [now rewrite Hl|].
    apply unhexlify_sound in Hb.
    assert (Hlen : List.length b = 20%nat).
    { pose proof (length_bytes_hex b) as L.
      rewrite Hb, length_lower, Hl in L. lia. }
    assert (Ht : hex_text_of b s).
    { destruct (prefix_split s) as (p & Hs & Hp).
      exists p, (remove_0x_prefix s). now repeat split. }
    exists b. repeat split; auto. now apply to_checksum_address_text.
  - right. unfold to_checksum_address.
    now rewrite to_normalized_address_str, E.
Qed.

Lemma checksum_address_text (b : list byte) :
  List.length b = 20%nat -> hex_text_of b (checksum_address b).
Proof.
  intros Hb. unfold checksum_address.
  exists "0x", (checksum_digits 40 (bytes_hex b)
                  (bytes_hex (keccak_text (bytes_hex b)))).
  split; [reflexivity | split; [auto|]].
  rewrite lower_checksum_digits, lower_bytes_hex; [reflexivity | |].
  - rewrite length_bytes_hex. lia.
  - rewrite length_hash_hex. lia.
Qed.

Lemma checksum_address_decodes (b : list byte) :
  List.length b = 20%nat ->
  HexBytes.to_bytes (VStr (checksum_address b)) = Ok b.
Proof.
  intros Hb. apply to_bytes_carries. right; right.
  exists (checksum_address b). split; [reflexivity|].
  now apply checksum_address_text.
Qed.

Lemma text_field_fixed_point (b : list byte) :
  List.length b = 20%nat ->
  EthereumAddressField.to_python (VStr (checksum_address b))
  = Ok (VStr (checksum_address b)).
Proof.
  intros Hb. pose proof (checksum_address_text b Hb) as Ht.
  rewrite text_field_to_python_text by exact (hex_text_nonempty _ _ Hb Ht).
  now rewrite (to_checksum_address_text b _ Hb Ht).
Qed.

(** The three ways [to_python] of the text field can end. *)
Lemma text_field_outcomes (v : pyobj) :
  (truthy (CharField.to_python v) = false
   /\ EthereumAddressField.to_python v = Ok (CharField.to_python v))
  \/ (exists b, List.length b = 20%nat
                /\ EthereumAddressField.to_python v = Ok (VStr (checksum_address b)))
  \/ EthereumAddressField.to_python v
     = Raise (ValidationError "invalid" (CharField.to_python v)).
Proof.
  unfold EthereumAddressField.to_python.
  destruct (truthy (CharField.to_python v)) eqn:Ht; [right | now left].
  assert (Hs : exists s, CharField.to_python v = VStr s).
  { destruct v; cbn in *; try discriminate; eauto. }
  destruct Hs as [s Hs]. rewrite Hs.
  destruct (to_checksum_address_text_cases s) as [(b & Hb & _ & E) | E];
    rewrite E; cbn; eauto.
Qed.

(** ** EthereumAddressField *)

(** X1: [to_python] of the text field is idempotent: a value it returns
    is returned unchanged when given again.  So [get_prep_value], which
    runs it twice, gives what one run gives, errors included. *)
Theorem text_field_get_prep_value_is_to_python (v : pyobj) :
  EthereumAddressField.get_prep_value v = EthereumAddressField.to_python v
  /\ (forall r, EthereumAddressField.to_python v = Ok r ->
                EthereumAddressField.to_python r = Ok r).
Proof.
  assert (Hfix : forall r, EthereumAddressField.to_python v = Ok r ->
                           EthereumAddressField.to_python r = Ok r).
  { intros r Hr.
    destruct (text_field_outcomes v) as [[Ht E] | [(b & Hb & E) | E]];
      rewrite E in Hr; try discriminate; injection Hr as <-.
    - unfold EthereumAddressField.to_python.
      destruct v; cbn in *; try discriminate; try reflexivity.
      now rewrite Ht.
    - now apply text_field_fixed_point. }
  split; [|exact Hfix].
  unfold EthereumAddressField.get_prep_value.
  destruct (EthereumAddressField.to_python v) as [r|e] eqn:E; cbn [bind].
  - now apply Hfix.
  - reflexivity.
Qed.

(** X2: whatever the text field returns fits its column: the result is
    [None], the empty text, or a text of exactly [max_length] = 42
    characters that starts with [0x]. *)
Theorem text_field_result_fits (v r : pyobj) :
  EthereumAddressField.to_python v = Ok r ->
  r = VNone \/ r = VStr ""
  \/ exists a, r = VStr a
               /\ String.length a = EthereumAddressField.max_length
               /\ startswith "0x" a = true.
Proof.
  intros Hr.
  destruct (text_field_outcomes v) as [[Ht E] | [(b & Hb & E) | E]];
    rewrite E in Hr; try discriminate; injection Hr as <-.
  - destruct v as [|s| |]; cbn in *; try discriminate; auto.
    destruct (String.eqb_spec s ""); [subst; auto | discriminate].
  - right; right. exists (checksum_address b). repeat split.
    now apply checksum_address_length.
Qed.

Lemma text_field_result_fits_witness :
  let r := VStr "0x5aAeb6053F3E94C9b9A09f33669435E7Ef1BeAed" in
  r = VNone \/ r = VStr ""
  \/ exists a, r = VStr a
               /\ String.length a = EthereumAddressField.max_length
               /\ startswith "0x" a = true.
Proof.
  apply (text_field_result_fits
           (VStr "5AAEB6053F3E94C9B9A09F33669435E7EF1BEAED")
           (VStr "0x5aAeb6053F3E94C9b9A09f33669435E7Ef1BeAed")).
  vm_compute. reflexivity.
Defined.

(** ** EthereumAddressV2Field *)

Lemma carries_truthy (b : list byte) (v : pyobj) :
  List.length b = 20%nat -> carries b v -> truthy v = true.
Proof.
  intros Hb [-> | [-> | (s & -> & Hs)]]; cbn.
  - now rewrite Hb.
  - now rewrite Hb.
  - pose proof (hex_text_nonempty b s Hb Hs).
    now destruct (String.eqb_spec s "").
Qed.

Lemma binary_field_to_python_carries (b : list byte) (v : pyobj) :
  List.length b = 20%nat -> carries b v ->
  EthereumAddressV2Field.to_python v = Ok (VStr (checksum_address b)).
Proof.
  intros Hb Hv. unfold EthereumAddressV2Field.to_python.
  destruct Hv as [-> | [-> | (s & -> & Hs)]].
  - rewrite (to_checksum_address_bytes b (VBytes b)) by now left.
    now rewrite Hb.
  - rewrite (to_checksum_address_bytes b (VHexBytes b)) by now right.
    now rewrite Hb.
  - now rewrite (to_checksum_address_text b s Hb Hs).
Qed.

(** X3: the binary address field stores an address as its 20 bytes and
    reads them back as the EIP-55 text: for every input carrying the 20
    bytes [b], [get_prep_value] is [b], [from_db_value] of [b] is the
    checksummed text, and preparing that text again gives [b]. *)
Theorem binary_field_storage_roundtrip (b : list byte) (v : pyobj) :
  List.length b = 20%nat -> carries b v ->
  EthereumAddressV2Field.get_prep_value v = Ok (VHexBytes b)
  /\ EthereumAddressV2Field.from_db_value (Some b) = Ok (VStr (checksum_address b))
  /\ EthereumAddressV2Field.get_prep_value (VStr (checksum_address b))
     = Ok (VHexBytes b).
Proof.
  intros Hb Hv.
  assert (Hprep : forall w, carries b w ->
            EthereumAddressV2Field.get_prep_value w = Ok (VHexBytes b)).
  { intros w Hw. unfold EthereumAddressV2Field.get_prep_value.
    rewrite (carries_truthy b w Hb Hw).
    rewrite (binary_field_to_python_carries b w Hb Hw). cbn [bind].
    now rewrite (checksum_address_decodes b Hb). }
  split; [now apply Hprep | split].
  - unfold EthereumAddressV2Field.from_db_value.
    destruct b as [|x b]; [discriminate Hb|].
    rewrite (to_checksum_address_text (x :: b) (bytes_hex (x :: b)) Hb);
      [reflexivity|].
    exists "", (bytes_hex (x :: b)). repeat split; auto using lower_bytes_hex.
  - apply Hprep. right; right. exists (checksum_address b).
    split; [reflexivity | now apply checksum_address_text].
Qed.

Lemma binary_field_storage_roundtrip_witness :
  EthereumAddressV2Field.get_prep_value
    (VStr "0x5AAEB6053F3E94C9B9A09F33669435E7EF1BEAED")
  = Ok (VHexBytes sample_address)
  /\ EthereumAddressV2Field.from_db_value (Some sample_address)
     = Ok (VStr (checksum_address sample_address))
  /\ EthereumAddressV2Field.get_prep_value (VStr (checksum_address sample_address))
     = Ok (VHexBytes sample_address).
Proof.
  apply (binary_field_storage_roundtrip sample_address
           (VStr "0x5AAEB6053F3E94C9B9A09F33669435E7EF1BEAED")).
  - reflexivity.
  - right; right. eexists. split; [reflexivity|].
    exists "0x", "5AAEB6053F3E94C9B9A09F33669435E7EF1BEAED". repeat split; auto.
Defined.

(** X4: reading the binary address column checks less than writing it.
    Stored bytes that are not empty and not 20 long make [from_db_value]
    fail with the bare [ValueError] of the conversion, not with a
    [ValidationError]; an empty column value reads as [None]. *)
Theorem binary_field_read_unchecked (b : list byte) :
  b <> [] -> List.length b <> 20%nat ->
  EthereumAddressV2Field.from_db_value (Some b) = Raise ValueError
  /\ EthereumAddressV2Field.to_python (VBytes b)
     = Raise (ValidationError "invalid" (VBytes b))
  /\ EthereumAddressV2Field.from_db_value (Some []) = Ok VNone.
Proof.
  intros Hne Hlen. split; [|split; [|reflexivity]].
  - destruct b as [|x b]; [now elim Hne|].
    unfold EthereumAddressV2Field.from_db_value.
    rewrite to_checksum_address_text_inv; [reflexivity|].
    intros (b' & Hb' & p & t & Hs & Hp & Ht).
    assert (Hd : str_forall is_hex_char (bytes_hex (x :: b)) = true)
      by apply forall_hex_bytes_hex.
    assert (p = "").
    { destruct Hp as [-> | [-> | ->]]; [reflexivity | |];
        rewrite Hs in Hd; cbn in Hd; discriminate. }
    subst p. cbn [append] in Hs. subst t.
    rewrite lower_bytes_hex in Ht. apply bytes_hex_inj in Ht. now subst b'.
  - unfold EthereumAddressV2Field.to_python.
    rewrite (to_checksum_address_bytes b (VBytes b)) by now left.
    destruct (Nat.eqb_spec (List.length b) 20); [contradiction | reflexivity].
Qed.

Lemma binary_field_read_unchecked_witness :
  EthereumAddressV2Field.from_db_value (Some [x23]) = Raise ValueError
  /\ EthereumAddressV2Field.to_python (VBytes [x23])
     = Raise (ValidationError "invalid" (VBytes [x23]))
  /\ EthereumAddressV2Field.from_db_value (Some []) = Ok VNone.
Proof.
  apply (binary_field_read_unchecked [x23]); [discriminate | cbn; lia].
Defined.

(** X5: what the binary address field prepares for storage always fits
    its column: the result is [None] or exactly [max_length] = 20 bytes,
    and a true value that carries no 20 bytes is refused with the
    invalid-address error naming it. *)
Theorem binary_field_prepares_20_bytes (v : pyobj) :
  (forall r, EthereumAddressV2Field.get_prep_value v = Ok r ->
     r = VNone
     \/ exists b, r = VHexBytes b
                  /\ List.length b = EthereumAddressV2Field.max_length)
  /\ (truthy v = true ->
      (~ exists b, List.length b = 20%nat /\ carries b v) ->
      EthereumAddressV2Field.get_prep_value v
      = Raise (ValidationError "invalid" v)).
Proof.
  assert (Hcases :
    (exists b, List.length b = 20%nat /\ carries b v)
    \/ v = VNone
    \/ EthereumAddressV2Field.to_python v = Raise (ValidationError "invalid" v)).
  { destruct v as [|s|b|b].
    - right; now left.
    - destruct (to_checksum_address_text_cases s) as [(b & Hb & Hs & _) | E].
      + left. exists b. split; [exact Hb|]. right; right. now exists s.
      + right; right. unfold EthereumAddressV2Field.to_python. now rewrite E.
    - destruct (Nat.eqb_spec (List.length b) 20) as [Hb|Hb].
      + left. exists b. split; [exact Hb | now left].
      + right; right. unfold EthereumAddressV2Field.to_python.
        rewrite (to_checksum_address_bytes b (VBytes b)) by now left.
        now destruct (Nat.eqb_spec (List.length b) 20).
    - destruct (Nat.eqb_spec (List.length b) 20) as [Hb|Hb].
      + left. exists b. split; [exact Hb | right; now left].
      + right; right. unfold EthereumAddressV2Field.to_python.
        rewrite (to_checksum_address_bytes b (VHexBytes b)) by now right.
        now destruct (Nat.eqb_spec (List.length b) 20). }
  split.
  - intros r Hr. unfold EthereumAddressV2Field.get_prep_value in Hr.
    destruct (truthy v) eqn:Ht; [|injection Hr as <-; now left].
    destruct Hcases as [(b & Hb & Hv) | [-> | E]].
    + rewrite (binary_field_to_python_carries b v Hb Hv) in Hr. cbn [bind] in Hr.
      rewrite (checksum_address_decodes b Hb) in Hr. cbn [bind] in Hr.
      injection Hr as <-. right. now exists b.
    + discriminate Ht.
    + rewrite E in Hr. discriminate Hr.
  - intros Ht Hno. unfold EthereumAddressV2Field.get_prep_value. rewrite Ht.
    destruct Hcases as [Hyes | [-> | E]].
    + contradiction.
    + discriminate Ht.
    + now rewrite E.
Qed.

(** ** Decoding hexadecimal text *)

Lemma unhexlify_nonhex (s : string) :
  str_forall is_hex_char s = false -> unhexlify s = Raise BinasciiError.
Proof.
  induction s as [| c | c1 c2 s IH] using str_pair_ind.
  - discriminate.
  - intros _. reflexivity.
  - rewrite unhexlify_pair. cbn [str_forall]. unfold is_hex_char at 1 2.
    destruct (hexval c1); [|reflexivity].
    destruct (hexval c2); [|reflexivity].
    cbn [andb]. intros H. now rewrite (IH H).
Qed.

Lemma hexstr_to_bytes_padded (s : string) :
  HexBytes.hexstr_to_bytes s
  = if str_forall is_ascii_char (padded_digits s)
    then unhexlify (padded_digits s) else Raise UnicodeError.
Proof.
  unfold HexBytes.hexstr_to_bytes, padded_digits, remove_0x_prefix, is_0x_prefixed.
  now destruct (Nat.odd (String.length s)).
Qed.

Lemma odd_length_digits (s : string) :
  Nat.odd (String.length (remove_0x_prefix s)) = Nat.odd (String.length s).
Proof.
  unfold remove_0x_prefix. destruct (is_0x_prefixed s) eqn:E; [|reflexivity].
  destruct (prefixed_inv s E) as (c & t & -> & _). reflexivity.
Qed.

Lemma even_length_padded (s : string) :
  Nat.even (String.length (padded_digits s)) = true.
Proof.
  unfold padded_digits. rewrite <- odd_length_digits.
  destruct (Nat.odd (String.length (remove_0x_prefix s))) eqn:E.
  - cbn [append String.length]. rewrite Nat.even_succ. exact E.
  - cbn [append]. unfold Nat.odd in E. now apply negb_false_iff in E.
Qed.

Lemma forall_hex_padded (s : string) :
  str_forall is_hex_char (padded_digits s)
  = str_forall is_hex_char (remove_0x_prefix s).
Proof.
  unfold padded_digits. now destruct (Nat.odd (String.length s)).
Qed.

(** Text decodes exactly when hexadecimal digits follow its optional
    prefix, and then to the bytes of the padded digits. *)
Lemma hexstr_to_bytes_hex (s : string) :
  str_forall is_hex_char (remove_0x_prefix s) = true ->
  exists bs, HexBytes.hexstr_to_bytes s = Ok bs
             /\ bytes_hex bs = lower (padded_digits s).
Proof.
  intros Hd. rewrite <- forall_hex_padded in Hd.
  rewrite hexstr_to_bytes_padded, (forall_hex_ascii _ Hd).
  destruct (unhexlify_digits _ Hd (even_length_padded s)) as [bs Hbs].
  exists bs. split; [exact Hbs | now apply unhexlify_sound].
Qed.

Lemma hexstr_to_bytes_nonhex (s : string) :
  str_forall is_hex_char (remove_0x_prefix s) = false ->
  exists e, is_ValueError e = true /\ HexBytes.hexstr_to_bytes s = Raise e.
Proof.
  intros Hd. rewrite <- forall_hex_padded in Hd.
  rewrite hexstr_to_bytes_padded.
  destruct (str_forall is_ascii_char (padded_digits s)).
  - exists BinasciiError. split; [reflexivity | now apply unhexlify_nonhex].
  - exists UnicodeError. now split.
Qed.

Lemma to_bytes_error (v : pyobj) (e : exn) :
  HexBytes.to_bytes v = Raise e ->
  (v = VNone /\ e = TypeError) \/ is_ValueError e = true.
Proof.
  destruct v as [|s|b|b]; cbn [HexBytes.to_bytes]; try discriminate.
  - intros [= <-]. now left.
  - intros E. right.
    destruct (str_forall is_hex_char (remove_0x_prefix s)) eqn:Hd.
    + destruct (hexstr_to_bytes_hex s Hd) as (bs & Hbs & _).
      rewrite Hbs in E. discriminate E.
    + destruct (hexstr_to_bytes_nonhex s Hd) as (e' & He' & Hs).
      rewrite Hs in E. now injection E as <-.
Qed.

(** ** HexField on text *)

(** X6: on text, HexField accepts exactly hexadecimal digits after an
    optional [0x]/[0X] prefix, also an odd number of them, which it pads
    on the left with one [0].  The stored form is the lowercased padded
    digits and the display form is the same behind [0x]. *)
Theorem hexfield_text_normal_form (s : string) :
  str_forall is_hex_char (remove_0x_prefix s) = true ->
  HexField.get_prep_value (VStr s) = Ok (VStr (lower (padded_digits s)))
  /\ HexField.to_python (VStr s) = Ok (VStr ("0x" ++ lower (padded_digits s)))
  /\ Nat.even (String.length (lower (padded_digits s))) = true.
Proof.
  intros Hd. destruct (hexstr_to_bytes_hex s Hd) as (bs & Hbs & Hhex).
  unfold HexField.get_prep_value, HexField.to_python.
  cbn [HexBytes.to_bytes]. rewrite Hbs. cbn [bind]. unfold HexBytes.hex.
  rewrite Hhex. repeat split.
  rewrite length_lower. apply even_length_padded.
Qed.

Lemma hexfield_text_normal_form_witness :
  HexField.get_prep_value (VStr "0XaBc") = Ok (VStr (lower (padded_digits "0XaBc")))
  /\ HexField.to_python (VStr "0XaBc")
     = Ok (VStr ("0x" ++ lower (padded_digits "0XaBc")))
  /\ Nat.even (String.length (lower (padded_digits "0XaBc"))) = true.
Proof. apply (hexfield_text_normal_form "0XaBc"). reflexivity. Defined.

(** X7: text with a character that is no hexadecimal digit makes
    HexField fail with the decoder's own error, a [ValueError] such as
    [binascii.Error], in [to_python], [from_db_value] and
    [get_prep_value] alike: the field wraps it in no
    [ValidationError]. *)
Theorem hexfield_text_error_escapes (s : string) :
  str_forall is_hex_char (remove_0x_prefix s) = false ->
  exists e, is_ValueError e = true
            /\ HexField.to_python (VStr s) = Raise e
            /\ HexField.from_db_value (VStr s) = Raise e
            /\ HexField.get_prep_value (VStr s) = Raise e.
Proof.
  intros Hd. destruct (hexstr_to_bytes_nonhex s Hd) as (e & He & Hs).
  exists e. unfold HexField.from_db_value, HexField.get_prep_value, HexField.to_python.
  cbn [HexBytes.to_bytes]. rewrite Hs. now repeat split.
Qed.

Lemma hexfield_text_error_escapes_witness :
  exists e, is_ValueError e = true
            /\ HexField.to_python (VStr "0xzz") = Raise e
            /\ HexField.from_db_value (VStr "0xzz") = Raise e
            /\ HexField.get_prep_value (VStr "0xzz") = Raise e.
Proof. apply (hexfield_text_error_escapes "0xzz"). reflexivity. Defined.

Lemma hexfield_to_python_of_store (v : pyobj) :
  HexField.to_python v
  = match HexField.get_prep_value v with
    | Ok (VStr stored) => Ok (VStr ("0x" ++ stored))
    | Ok other => Ok other
    | Raise e => Raise e
    end.
Proof.
  destruct v as [|s|b|b]; try reflexivity.
  unfold HexField.to_python, HexField.get_prep_value.
  now destruct (HexBytes.to_bytes (VStr s)).
Qed.

Lemma hexfield_shown_length (v : pyobj) (stored shown : string) :
  HexField.get_prep_value v = Ok (VStr stored) ->
  HexField.to_python v = Ok (VStr shown) ->
  String.length shown = (String.length stored + 2)%nat.
Proof.
  intros Hs Hd. rewrite hexfield_to_python_of_store, Hs in Hd.
  injection Hd as <-. cbn [append String.length]. lia.
Qed.

(** X8: for every input, what HexField displays is what it stores
    behind [0x]: [to_python] succeeds exactly when [get_prep_value]
    does, with the same error otherwise, and the display form is two
    characters longer than the stored form. *)
Theorem hexfield_display_is_prefixed_store (v : pyobj) :
  HexField.to_python v
  = match HexField.get_prep_value v with
    | Ok (VStr stored) => Ok (VStr ("0x" ++ stored))
    | Ok other => Ok other
    | Raise e => Raise e
    end
  /\ (forall stored shown,
        HexField.get_prep_value v = Ok (VStr stored) ->
        HexField.to_python v = Ok (VStr shown) ->
        String.length shown = (String.length stored + 2)%nat).
Proof.
  split; [apply hexfield_to_python_of_store | apply hexfield_shown_length].
Qed.

(** ** HexField.clean on present values *)

Lemma clean_carries
  (validate run_validators : pyobj -> result unit) (b : list byte) (v : pyobj) :
  carries b v ->
  HexField.clean validate run_validators v
  = (_ <- validate (VStr ("0x" ++ bytes_hex b)) ;;
     _ <- run_validators (VStr (bytes_hex b)) ;;
     Ok (VStr ("0x" ++ bytes_hex b))).
Proof.
  intros Hv. unfold HexField.clean.
  rewrite (hexfield_to_python_carries b v Hv). reflexivity.
Qed.

Lemma carries_stored (b : list byte) (v : pyobj) :
  carries b v -> HexField.get_prep_value v = Ok (VStr (bytes_hex b)).
Proof.
  intros Hv. pose proof (to_bytes_carries b v Hv) as E.
  destruct Hv as [-> | [-> | (s & -> & Hs)]]; try reflexivity.
  unfold HexField.get_prep_value. now rewrite E.
Qed.

(** X9: [clean] hands the validators the value without its [0x], that
    is, exactly the form that [get_prep_value] stores, and returns the
    display form when they pass; an error of [validate] or of the
    validators is the error of [clean]. *)
Theorem hexfield_clean_checks_stored_form
  (validate run_validators : pyobj -> result unit) (b : list byte) (v : pyobj) :
  carries b v ->
  exists stored,
    HexField.get_prep_value v = Ok (VStr stored)
    /\ HexField.clean validate run_validators v
       = (_ <- validate (VStr ("0x" ++ stored)) ;;
          _ <- run_validators (VStr stored) ;;
          Ok (VStr ("0x" ++ stored)))
    /\ (validate (VStr ("0x" ++ stored)) = Ok tt ->
        run_validators (VStr stored) = Ok tt ->
        HexField.clean validate run_validators v = HexField.to_python v).
Proof.
  intros Hv. exists (bytes_hex b). split; [|split].
  - now apply carries_stored.
  - now apply clean_carries.
  - intros H1 H2. rewrite (clean_carries _ _ b v Hv), H1, H2.
    now rewrite (hexfield_to_python_carries b v Hv).
Qed.

Lemma hexfield_clean_checks_stored_form_witness :
  exists stored,
    HexField.get_prep_value (VStr "0XDeadBeef") = Ok (VStr stored)
    /\ HexField.clean (Field.validate false false) (Field.run_validators 8)
         (VStr "0XDeadBeef")
       = (_ <- Field.validate false false (VStr ("0x" ++ stored)) ;;
          _ <- Field.run_validators 8 (VStr stored) ;;
          Ok (VStr ("0x" ++ stored)))
    /\ (Field.validate false false (VStr ("0x" ++ stored)) = Ok tt ->
        Field.run_validators 8 (VStr stored) = Ok tt ->
        HexField.clean (Field.validate false false) (Field.run_validators 8)
          (VStr "0XDeadBeef")
        = HexField.to_python (VStr "0XDeadBeef")).
Proof.
  apply (hexfield_clean_checks_stored_form
           (Field.validate false false) (Field.run_validators 8)
           [xde; xad; xbe; xef] (VStr "0XDeadBeef")).
  right; right. eexists. split; [reflexivity|].
  exists "0X", "DeadBeef". repeat split; auto.
Defined.

(** X10: a hash of up to 32 bytes passes [clean] of Sha3HashField, whose
    [max_length] is 64, although the display form of a 32-byte hash has
    66 characters and would fail the same length check; a longer value
    is refused, with the stored form in the error. *)
Theorem sha3hash_clean_length (null blank : bool) (b : list byte) (v : pyobj) :
  carries b v ->
  ((List.length b <= 32)%nat ->
   HexField.clean (Field.validate null blank)
     (Field.run_validators Sha3HashField.max_length) v
   = Ok (VStr ("0x" ++ bytes_hex b)))
  /\ ((32 < List.length b)%nat ->
      HexField.clean (Field.validate null blank)
        (Field.run_validators Sha3HashField.max_length) v
      = Raise (ValidationError "max_length" (VStr (bytes_hex b))))
  /\ (List.length b = 32%nat ->
      Field.run_validators Sha3HashField.max_length (VStr ("0x" ++ bytes_hex b))
      = Raise (ValidationError "max_length" (VStr ("0x" ++ bytes_hex b)))).
Proof.
  intros Hv. rewrite (clean_carries _ _ b v Hv).
  assert (Hval : Field.validate null blank (VStr ("0x" ++ bytes_hex b)) = Ok tt).
  { unfold Field.validate. cbn [Field.is_empty_value append String.eqb].
    now rewrite andb_false_r. }
  rewrite Hval. cbn [bind]. unfold Field.run_validators, Sha3HashField.max_length.
  rewrite length_bytes_hex. cbn [append String.length String.eqb negb andb].
  rewrite length_bytes_hex.
  split; [|split]; intros Hb.
  - destruct (negb (bytes_hex b =? "")%string); cbn [andb]; [|reflexivity].
    destruct (Nat.ltb_spec 64 (2 * List.length b)); [lia | reflexivity].
  - destruct b as [|x b]; [cbn in Hb; lia|].
    cbn [bytes_hex String.eqb negb andb].
    destruct (Nat.ltb_spec 64 (2 * List.length (x :: b))); [reflexivity | lia].
  - destruct (Nat.ltb_spec 64 (S (S (2 * List.length b)))); [reflexivity | lia].
Qed.

Lemma sha3hash_clean_length_witness :
  HexField.clean (Field.validate true true)
    (Field.run_validators Sha3HashField.max_length) (VBytes sample_hash)
  = Ok (VStr ("0x" ++ bytes_hex sample_hash))
  /\ Field.run_validators Sha3HashField.max_length
       (VStr ("0x" ++ bytes_hex sample_hash))
     = Raise (ValidationError "max_length" (VStr ("0x" ++ bytes_hex sample_hash))).
Proof.
  destruct (sha3hash_clean_length true true sample_hash (VBytes sample_hash))
    as (H1 & _ & H3); [now left|].
  split; [apply H1; cbn; lia | apply H3; reflexivity].
Defined.

(** ** Keccak256Field *)

Lemma keccak256_to_bytes_outcomes (v : pyobj) :
  v <> VNone ->
  (exists bs, HexBytes.to_bytes v = Ok bs /\ List.length bs = 32%nat
              /\ Keccak256Field.to_bytes v = Ok (VHexBytes bs))
  \/ (exists bs, HexBytes.to_bytes v = Ok bs /\ List.length bs <> 32%nat
                 /\ Keccak256Field.to_bytes v = Raise (ValidationError "length" v))
  \/ (exists e, HexBytes.to_bytes v = Raise e /\ is_ValueError e = true
                /\ Keccak256Field.to_bytes v = Raise (ValidationError "invalid" v)).
Proof.
  intros Hv.
  assert (E : Keccak256Field.to_bytes v
              = try_except_ValueError
                  (result <- HexBytes.to_bytes v ;;
                   if negb (Nat.eqb (List.length result) 32)
                   then Raise (ValidationError "length" v)
                   else Ok (VHexBytes result))
                  (Raise (ValidationError "invalid" v)))
    by (destruct v; [now elim Hv | reflexivity ..]).
  rewrite E. destruct (HexBytes.to_bytes v) as [bs|e] eqn:Hb; cbn [bind].
  - destruct (Nat.eqb_spec (List.length bs) 32) as [H|H]; cbn.
    + left. now exists bs.
    + right; left. now exists bs.
  - right; right. exists e.
    destruct (to_bytes_error v e Hb) as [[-> _] | He]; [now elim Hv|].
    cbn. now rewrite He.
Qed.

Lemma keccak256_to_python_is_to_bytes (v : pyobj) :
  Keccak256Field.to_python v = Keccak256Field.to_bytes v.
Proof.
  destruct v as [|s|b|b]; [reflexivity | | |];
    (match goal with
     | |- Keccak256Field.to_python ?w = _ =>
         change (Keccak256Field.to_python w)
           with (try_except_ValueError (Keccak256Field.to_bytes w)
                   (Raise (ValidationError "invalid" w)));
         destruct (keccak256_to_bytes_outcomes w) as
           [(bs & _ & _ & E) | [(bs & _ & _ & E) | (e & _ & _ & E)]];
         [discriminate | rewrite E; reflexivity ..]
     end).
Qed.

(** X11: Keccak256Field lets no decoding error out.  Whatever
    [to_bytes], [to_python] or [get_prep_value] raise is a
    [ValidationError] that carries the input, with code [length] or
    [invalid]; text with a character that is no hexadecimal digit gives
    [invalid].  [to_python] agrees with [to_bytes] on every input, so
    its own [except] clause never fires. *)
Theorem keccak256_raises_only_validation_errors (v : pyobj) :
  Keccak256Field.to_python v = Keccak256Field.to_bytes v
  /\ (forall e,
        Keccak256Field.to_bytes v = Raise e
        \/ Keccak256Field.get_prep_value v = Raise e ->
        e = ValidationError "length" v \/ e = ValidationError "invalid" v)
  /\ (forall s, v = VStr s ->
        str_forall is_hex_char (remove_0x_prefix s) = false ->
        Keccak256Field.to_bytes v = Raise (ValidationError "invalid" v)).
Proof.
  split; [apply keccak256_to_python_is_to_bytes | split].
  - assert (Hb : forall e, Keccak256Field.to_bytes v = Raise e ->
               e = ValidationError "length" v \/ e = ValidationError "invalid" v).
    { intros e He. destruct v as [|s|b|b]; [discriminate He | | |];
        (match type of He with
         | Keccak256Field.to_bytes ?w = _ =>
             destruct (keccak256_to_bytes_outcomes w) as
               [(bs & _ & _ & E) | [(bs & _ & _ & E) | (e' & _ & _ & E)]];
             [discriminate
             | rewrite E in He; try discriminate He; injection He as <-; auto ..]
         end). }
    intros e [He | He]; [now apply Hb|].
    unfold Keccak256Field.get_prep_value in He.
    destruct (truthy v); [now apply Hb | discriminate He].
  - intros s -> Hd.
    destruct (keccak256_to_bytes_outcomes (VStr s)) as
      [(bs & Hb & _) | [(bs & Hb & _) | (e & _ & _ & E)]]; try discriminate;
      try exact E;
      destruct (hexstr_to_bytes_nonhex s Hd) as (e' & _ & Hs);
      cbn [HexBytes.to_bytes] in Hb; rewrite Hs in Hb; discriminate Hb.
Qed.

(** X12: the binary hash field stores a hash as its 32 bytes and shows
    them as text: for every input carrying the 32 bytes [b],
    [get_prep_value] and [to_python] are [b], [from_db_value] of [b] is
    [0x] and its 64 digits, and that text prepares to [b] again. *)
Theorem keccak256_storage_roundtrip (b : list byte) (v : pyobj) :
  List.length b = 32%nat -> carries b v ->
  Keccak256Field.get_prep_value v = Ok (VHexBytes b)
  /\ Keccak256Field.to_python v = Ok (VHexBytes b)
  /\ exists shown,
       Keccak256Field.from_db_value (Some b) = Ok (VStr shown)
       /\ String.length shown = 66%nat
       /\ Keccak256Field.get_prep_value (VStr shown) = Ok (VHexBytes b).
Proof.
  intros Hb Hv.
  assert (Hbytes : forall w, carries b w ->
            Keccak256Field.to_bytes w = Ok (VHexBytes b)).
  { intros w Hw. pose proof (to_bytes_carries b w Hw) as E.
    unfold Keccak256Field.to_bytes.
    destruct w; [discriminate E | | |]; rewrite E; cbn [bind];
      rewrite Hb; reflexivity. }
  assert (Htruthy : forall w, carries b w -> truthy w = true).
  { intros w [-> | [-> | (s & -> & Hs)]]; cbn; try (now rewrite Hb).
    destruct (String.eqb_spec s "") as [->|]; [|reflexivity].
    pose proof (hexstr_to_bytes_text b "" Hs) as E. cbn in E.
    injection E as <-. discriminate Hb. }
  split; [|split].
  - unfold Keccak256Field.get_prep_value. rewrite (Htruthy v Hv). now apply Hbytes.
  - rewrite keccak256_to_python_is_to_bytes. now apply Hbytes.
  - exists ("0x" ++ bytes_hex b).
    assert (Hs : carries b (VStr ("0x" ++ bytes_hex b))).
    { right; right. eexists. split; [reflexivity|].
      exists "0x", (bytes_hex b). repeat split; auto using lower_bytes_hex. }
    split; [|split].
    + destruct b as [|x b]; [discriminate Hb | reflexivity].
    + rewrite str_length_app, length_bytes_hex, Hb. reflexivity.
    + unfold Keccak256Field.get_prep_value. rewrite (Htruthy _ Hs).
      now apply Hbytes.
Qed.

Lemma keccak256_storage_roundtrip_witness :
  Keccak256Field.get_prep_value
    (VStr "c5d2460186f7233c927e7db2dcc703c0e500b653ca82273b7bfad8045d85a470")
  = Ok (VHexBytes sample_hash)
  /\ Keccak256Field.to_python
       (VStr "c5d2460186f7233c927e7db2dcc703c0e500b653ca82273b7bfad8045d85a470")
     = Ok (VHexBytes sample_hash)
  /\ exists shown,
       Keccak256Field.from_db_value (Some sample_hash) = Ok (VStr shown)
       /\ String.length shown = 66%nat
       /\ Keccak256Field.get_prep_value (VStr shown) = Ok (VHexBytes sample_hash).
Proof.
  apply (keccak256_storage_roundtrip sample_hash
    (VStr "c5d2460186f7233c927e7db2dcc703c0e500b653ca82273b7bfad8045d85a470")).
  - reflexivity.
  - right; right. eexists. split; [reflexivity|].
    exists "", "c5d2460186f7233c927e7db2dcc703c0e500b653ca82273b7bfad8045d85a470".
    repeat split; auto.
Defined.

(** ** Uint256Field beyond the uint256 range *)

(** X13: the field round-trips every integer it stores, negative ones
    and those from 2**256 on included: when the magnitude of [v] is
    below 10**79, reading the stored text of [v] gives [v], and two
    integers with the same stored text are equal. *)
Theorem uint256_roundtrip_within_digits (v : Z) :
  Z.abs v < 10 ^ 79 ->
  (exists text,
      Uint256Field.get_db_prep_save (Some v) = Ok (Some text)
      /\ Uint256Field.from_db_value (Some text) = Ok (Some v))
  /\ (forall w text,
        Uint256Field.get_db_prep_save (Some v) = Ok (Some text) ->
        Uint256Field.get_db_prep_save (Some w) = Ok (Some text) ->
        v = w).
Proof.
  intros Hv. split.
  - exists (PyDecimal.format_f v). split; [now apply save_within_digits|].
    unfold Uint256Field.from_db_value. now rewrite to_int_format_f.
  - intros w text Hsv Hsw.
    rewrite (save_within_digits v Hv) in Hsv. injection Hsv as <-.
    destruct (Z_lt_le_dec (Z.abs w) (10 ^ 79)) as [Hw|Hw].
    + rewrite (save_within_digits w Hw) in Hsw. injection Hsw as E.
      apply (f_equal PyDecimal.to_int) in E.
      rewrite !to_int_format_f in E. now injection E.
    + rewrite (save_beyond_digits w Hw) in Hsw. discriminate Hsw.
Qed.

Lemma uint256_roundtrip_within_digits_witness :
  (exists text,
      Uint256Field.get_db_prep_save (Some (- 2 ^ 260)) = Ok (Some text)
      /\ Uint256Field.from_db_value (Some text) = Ok (Some (- 2 ^ 260)))
  /\ (forall w text,
        Uint256Field.get_db_prep_save (Some (- 2 ^ 260)) = Ok (Some text) ->
        Uint256Field.get_db_prep_save (Some w) = Ok (Some text) ->
        - 2 ^ 260 = w).
Proof.
  apply (uint256_roundtrip_within_digits (- 2 ^ 260)). vm_compute. reflexivity.
Defined.

(** ** Addresses without letters *)

Lemma digit_char_upper (c : ascii) :
  is_hex_char c = true -> has_hex_letter (String c "") = false ->
  char_upper c = c.
Proof. each_char c. Qed.

Lemma has_hex_letter_cons (c : ascii) (s : string) :
  has_hex_letter (String c s) = has_hex_letter (String c "") || has_hex_letter s.
Proof. cbn [has_hex_letter]. now rewrite orb_false_r. Qed.

Lemma checksum_digits_no_letter (n : nat) :
  forall address hash,
    str_forall is_hex_char address = true ->
    has_hex_letter address = false ->
    String.length address = n -> (n <= String.length hash)%nat ->
    checksum_digits n address hash = address.
Proof.
  induction n as [|n IH]; intros [|c a] [|h k] Hd Hl Ha Hk;
    cbn [String.length] in *; try reflexivity; try lia.
  cbn [str_forall] in Hd. apply andb_true_iff in Hd as [Hc Hd].
  rewrite has_hex_letter_cons in Hl. apply orb_false_iff in Hl as [Hlc Hl].
  cbn [checksum_digits]. rewrite (digit_char_upper c Hc Hlc).
  rewrite IH by (auto; lia). now destruct (7 <? hex_int h)%N.
Qed.

(** X14: an address whose digits hold no letter, such as the null
    address, has no checksum capitalisation: both address fields return
    its digits behind [0x], whatever the hash of the digits is. *)
Theorem letterless_address_is_its_own_checksum (b : list byte) (s : string) :
  List.length b = 20%nat ->
  has_hex_letter (bytes_hex b) = false ->
  hex_text_of b s ->
  EthereumAddressField.to_python (VStr s) = Ok (VStr ("0x" ++ bytes_hex b))
  /\ EthereumAddressV2Field.to_python (VStr s) = Ok (VStr ("0x" ++ bytes_hex b))
  /\ EthereumAddressV2Field.to_python (VBytes b) = Ok (VStr ("0x" ++ bytes_hex b)).
Proof.
  intros Hb Hl Hs.
  assert (E : checksum_address b = "0x" ++ bytes_hex b).
  { unfold checksum_address. rewrite checksum_digits_no_letter; auto.
    - apply forall_hex_bytes_hex.
    - rewrite length_bytes_hex. lia.
    - rewrite length_hash_hex. lia. }
  rewrite <- E. split; [|split].
  - rewrite text_field_to_python_text by exact (hex_text_nonempty b s Hb Hs).
    now rewrite (to_checksum_address_text b s Hb Hs).
  - apply binary_field_to_python_carries; auto. right; right. now exists s.
  - apply binary_field_to_python_carries; auto. now left.
Qed.

Lemma letterless_address_is_its_own_checksum_witness :
  let b := repeat x00 20 in
  let s := "0x0000000000000000000000000000000000000000" in
  EthereumAddressField.to_python (VStr s) = Ok (VStr ("0x" ++ bytes_hex b))
  /\ EthereumAddressV2Field.to_python (VStr s) = Ok (VStr ("0x" ++ bytes_hex b))
  /\ EthereumAddressV2Field.to_python (VBytes b) = Ok (VStr ("0x" ++ bytes_hex b)).
Proof.
  apply (letterless_address_is_its_own_checksum (repeat x00 20)
           "0x0000000000000000000000000000000000000000").
  - reflexivity.
  - reflexivity.
  - exists "0x", "0000000000000000000000000000000000000000". repeat split; auto.
Defined.

(** ** Keyword arguments *)

Lemma get_set_same (key : string) (v : PyDict.kwarg) (d : PyDict.dict) :
  PyDict.get key (PyDict.set key v d) = Some v.
Proof.
  induction d as [|[k w] d IH]; cbn.
  - now rewrite String.eqb_refl.
  - destruct (String.eqb_spec key k) as [->|Hk]; cbn.
    + now rewrite String.eqb_refl.
    + destruct (String.eqb_spec key k); [contradiction | exact IH].
Qed.

Lemma get_set_other (key k' : string) (v : PyDict.kwarg) (d : PyDict.dict) :
  k' <> key -> PyDict.get k' (PyDict.set key v d) = PyDict.get k' d.
Proof.
  intros Hne. induction d as [|[k w] d IH]; cbn.
  - destruct (String.eqb_spec k' key); [contradiction | reflexivity].
  - destruct (String.eqb_spec key k) as [->|Hk]; cbn.
    + destruct (String.eqb_spec k' k); [contradiction | reflexivity].
    + now rewrite IH.
Qed.

Lemma get_filter_same (key : string) (d : PyDict.dict) :
  PyDict.get key (filter (fun kv => negb (String.eqb key (fst kv))) d) = None.
Proof.
  induction d as [|[k w] d IH]; cbn; [reflexivity|].
  destruct (String.eqb_spec key k) as [->|Hk]; cbn; [exact IH|].
  destruct (String.eqb_spec key k); [contradiction | exact IH].
Qed.

Lemma get_filter_other (key k' : string) (d : PyDict.dict) :
  k' <> key ->
  PyDict.get k' (filter (fun kv => negb (String.eqb key (fst kv))) d)
  = PyDict.get k' d.
Proof.
  intros Hne. induction d as [|[k w] d IH]; cbn; [reflexivity|].
  destruct (String.eqb_spec key k) as [->|Hk]; cbn.
  - destruct (String.eqb_spec k' k); [contradiction | exact IH].
  - now rewrite IH.
Qed.

Lemma get_absent (key : string) (d : PyDict.dict) :
  ~ In key (map fst d) -> PyDict.get key d = None.
Proof.
  induction d as [|[k w] d IH]; cbn; [reflexivity|]. intros Hn.
  destruct (String.eqb_spec key k) as [->|Hk]; [elim Hn; now left|].
  apply IH. intros Hi. apply Hn. now right.
Qed.

Lemma get_update_absent (key : string) (other : PyDict.dict) :
  forall d, PyDict.get key other = None ->
            PyDict.get key (PyDict.update d other) = PyDict.get key d.
Proof.
  unfold PyDict.update.
  induction other as [|[k w] other IH]; intros d; cbn; [reflexivity|].
  destruct (String.eqb_spec key k) as [->|Hk]; [discriminate|].
  intros Hn. rewrite (IH _ Hn). now apply get_set_other.
Qed.

Lemma get_update_present (key : string) (x : PyDict.kwarg) (other : PyDict.dict) :
  NoDup (map fst other) ->
  forall d, PyDict.get key other = Some x ->
            PyDict.get key (PyDict.update d other) = Some x.
Proof.
  unfold PyDict.update.
  induction other as [|[k w] other IH]; intros Hnd d; cbn; [discriminate|].
  inversion Hnd as [|? ? Hk Hnd']; subst.
  destruct (String.eqb_spec key k) as [->|Hne].
  - intros [= <-].
    pose proof (get_update_absent k other (PyDict.set k w d) (get_absent _ _ Hk)) as E.
    unfold PyDict.update in E. rewrite E. apply get_set_same.
  - intros Hx. now apply IH.
Qed.

(** ** The form field of HexField *)

(** X15: the keyword arguments of the form field.  What the caller
    passes wins.  Otherwise [max_length] is the field's plus 2, which is
    exactly the room of the [0x]: a stored form fits the field's
    [max_length] iff its display form fits the form's.  [empty_value]
    is set, to [None], only on a nullable field whose database does not
    read empty strings as nulls. *)
Theorem hexfield_formfield_arguments
  (max_length : nat) (null interprets_empty_strings_as_nulls : bool)
  (kwargs : PyDict.dict) :
  NoDup (map fst kwargs) ->
  let form := HexFieldForm.formfield max_length null
                interprets_empty_strings_as_nulls kwargs in
  (forall key x, PyDict.get key kwargs = Some x -> PyDict.get key form = Some x)
  /\ (PyDict.get "max_length" kwargs = None ->
      PyDict.get "max_length" form = Some (PyDict.KInt (Z.of_nat max_length + 2))
      /\ forall v stored shown,
           HexField.get_prep_value v = Ok (VStr stored) ->
           HexField.to_python v = Ok (VStr shown) ->
           (Z.of_nat (String.length stored) <= Z.of_nat max_length
            <-> Z.of_nat (String.length shown) <= Z.of_nat max_length + 2))
  /\ (PyDict.get "empty_value" kwargs = None ->
      PyDict.get "empty_value" form
      = if null && negb interprets_empty_strings_as_nulls
        then Some PyDict.KNone else None).
Proof.
  intros Hnd form. subst form. unfold HexFieldForm.formfield.
  split; [|split].
  - intros key x Hx. now apply get_update_present.
  - intros Hn. split.
    + rewrite (get_update_absent _ _ _ Hn).
      now destruct (null && negb interprets_empty_strings_as_nulls).
    + intros v stored shown Hs Hd.
      rewrite (hexfield_shown_length v stored shown Hs Hd). lia.
  - intros Hn. rewrite (get_update_absent _ _ _ Hn).
    now destruct (null && negb interprets_empty_strings_as_nulls).
Qed.

Lemma hexfield_formfield_arguments_witness :
  let form := HexFieldForm.formfield 64 true false [("label", PyDict.KStr "hash")] in
  (forall key x,
      PyDict.get key [("label", PyDict.KStr "hash")] = Some x ->
      PyDict.get key form = Some x)
  /\ (PyDict.get "max_length" [("label", PyDict.KStr "hash")] = None ->
      PyDict.get "max_length" form = Some (PyDict.KInt (Z.of_nat 64 + 2))
      /\ forall v stored shown,
           HexField.get_prep_value v = Ok (VStr stored) ->
           HexField.to_python v = Ok (VStr shown) ->
           (Z.of_nat (String.length stored) <= Z.of_nat 64
            <-> Z.of_nat (String.length shown) <= Z.of_nat 64 + 2))
  /\ (PyDict.get "empty_value" [("label", PyDict.KStr "hash")] = None ->
      PyDict.get "empty_value" form
      = if true && negb false then Some PyDict.KNone else None).
Proof.
  apply (hexfield_formfield_arguments 64 true false [("label", PyDict.KStr "hash")]).
  repeat constructor. intros [].
Defined.

(** ** Constructor arguments *)

Lemma del_present (key : string) (d d' : PyDict.dict) :
  PyDict.del key d = Some d' ->
  PyDict.get key d <> None
  /\ PyDict.get key d' = None
  /\ (forall k, k <> key -> PyDict.get k d' = PyDict.get k d).
Proof.
  unfold PyDict.del. destruct (PyDict.get key d) as [x|] eqn:E; [|discriminate].
  intros [= <-]. split; [discriminate | split].
  - apply get_filter_same.
  - intros k Hk. now apply get_filter_other.
Qed.

Lemma set_restores (key : string) (x : PyDict.kwarg) (d d' : PyDict.dict) :
  PyDict.del key d = Some d' -> PyDict.get key d = Some x ->
  forall k, PyDict.get k (PyDict.set key x d') = PyDict.get k d.
Proof.
  intros Hd Hx k. destruct (del_present key d d' Hd) as (_ & _ & Ho).
  destruct (String.eqb_spec k key) as [->|Hk].
  - now rewrite get_set_same.
  - rewrite get_set_other by exact Hk. now apply Ho.
Qed.

(** X16: the fields with a fixed [max_length].  [__init__] replaces
    whatever [max_length] the caller passed by the field's own and keeps
    the other arguments.  [deconstruct] fails with a [KeyError] exactly
    when the parent reports no [max_length]; otherwise its result has no
    [max_length], keeps the other arguments, and constructing from it
    reproduces the arguments of a field built by [__init__]. *)
Theorem max_length_is_fixed_and_hidden (kwargs : PyDict.dict) :
  (PyDict.get "max_length" (EthereumAddressFieldArgs.init kwargs) = Some (PyDict.KInt 42)
   /\ PyDict.get "max_length" (EthereumAddressV2FieldArgs.init kwargs) = Some (PyDict.KInt 20)
   /\ PyDict.get "max_length" (Sha3HashFieldArgs.init kwargs) = Some (PyDict.KInt 64)
   /\ PyDict.get "max_length" (Keccak256FieldArgs.init kwargs) = Some (PyDict.KInt 32))
  /\ (forall k, k <> "max_length" ->
        PyDict.get k (EthereumAddressFieldArgs.init kwargs) = PyDict.get k kwargs
        /\ PyDict.get k (EthereumAddressV2FieldArgs.init kwargs) = PyDict.get k kwargs
        /\ PyDict.get k (Sha3HashFieldArgs.init kwargs) = PyDict.get k kwargs
        /\ PyDict.get k (Keccak256FieldArgs.init kwargs) = PyDict.get k kwargs)
  /\ (PyDict.get "max_length" kwargs = None <->
      EthereumAddressFieldArgs.deconstruct kwargs = None)
  /\ (forall d, EthereumAddressFieldArgs.deconstruct kwargs = Some d ->
        EthereumAddressV2FieldArgs.deconstruct kwargs = Some d
        /\ Sha3HashFieldArgs.deconstruct kwargs = Some d
        /\ Keccak256FieldArgs.deconstruct kwargs = Some d
        /\ PyDict.get "max_length" d = None
        /\ (forall k, k <> "max_length" -> PyDict.get k d = PyDict.get k kwargs)
        /\ (PyDict.get "max_length" kwargs = Some (PyDict.KInt 42) ->
            forall k, PyDict.get k (EthereumAddressFieldArgs.init d)
                      = PyDict.get k kwargs)).
Proof.
  split; [|split; [|split; [|]]].
  - repeat split; apply get_set_same.
  - intros k Hk. repeat split; now apply get_set_other.
  - unfold EthereumAddressFieldArgs.deconstruct, PyDict.del.
    destruct (PyDict.get "max_length" kwargs); split; intros; congruence.
  - intros d Hd. destruct (del_present _ _ _ Hd) as (_ & Hg & Ho).
    split; [exact Hd | split; [exact Hd | split; [exact Hd | split; [exact Hg|]]]].
    split; [exact Ho|].
    intros Hx. exact (set_restores "max_length" _ kwargs d Hd Hx).
Qed.

(** X17: Uint256Field fixes [max_digits] = 79 and [decimal_places] = 0
    in the same way: the caller's values are replaced, the other
    arguments kept, and [deconstruct] reports neither key, failing with
    a [KeyError] exactly when the parent reports one of them missing. *)
Theorem uint256_digits_are_fixed_and_hidden (kwargs : PyDict.dict) :
  PyDict.get "max_digits" (Uint256FieldArgs.init kwargs) = Some (PyDict.KInt 79)
  /\ PyDict.get "decimal_places" (Uint256FieldArgs.init kwargs) = Some (PyDict.KInt 0)
  /\ (forall k, k <> "max_digits" -> k <> "decimal_places" ->
        PyDict.get k (Uint256FieldArgs.init kwargs) = PyDict.get k kwargs)
  /\ (Uint256FieldArgs.deconstruct kwargs = None <->
      PyDict.get "max_digits" kwargs = None
      \/ PyDict.get "decimal_places" kwargs = None)
  /\ (forall d, Uint256FieldArgs.deconstruct kwargs = Some d ->
        PyDict.get "max_digits" d = None
        /\ PyDict.get "decimal_places" d = None
        /\ (forall k, k <> "max_digits" -> k <> "decimal_places" ->
              PyDict.get k d = PyDict.get k kwargs)
        /\ forall k, k <> "max_digits" -> k <> "decimal_places" ->
             PyDict.get k (Uint256FieldArgs.init d) = PyDict.get k kwargs).
Proof.
  assert (Hne : "decimal_places" <> "max_digits") by discriminate.
  unfold Uint256FieldArgs.init, Uint256FieldArgs.deconstruct.
  split; [|split; [|split; [|split]]].
  - rewrite get_set_other by (intros E; now apply Hne); apply get_set_same.
  - apply get_set_same.
  - intros k H1 H2. now rewrite !get_set_other.
  - destruct (PyDict.del "max_digits" kwargs) as [d1|] eqn:E1.
    + destruct (del_present _ _ _ E1) as (Hp & _ & Ho).
      rewrite <- (Ho "decimal_places" Hne).
      unfold PyDict.del at 1.
      destruct (PyDict.get "decimal_places" d1); intuition congruence.
    + unfold PyDict.del in E1.
      destruct (PyDict.get "max_digits" kwargs); [discriminate | tauto].
  - intros d Hd.
    destruct (PyDict.del "max_digits" kwargs) as [d1|] eqn:E1; [|discriminate].
    destruct (del_present _ _ _ E1) as (_ & Hg1 & Ho1).
    destruct (del_present _ _ _ Hd) as (_ & Hg2 & Ho2).
    assert (Hkeep : forall k, k <> "max_digits" -> k <> "decimal_places" ->
                              PyDict.get k d = PyDict.get k kwargs).
    { intros k H1 H2. rewrite Ho2 by exact H2. now apply Ho1. }
    repeat split; auto.
    + rewrite Ho2; [exact Hg1 | intros E; now apply Hne].
    + intros k H1 H2. rewrite !get_set_other by assumption. now apply Hkeep.
Qed.
